(** * Omni-Grid analytics tool: a shallow embedding and its properties

    The development follows the Python sources:
    - [analytics.py]      the [DataAnalytics] engine over a pandas frame,
    - [mock_data.py]      the seeded [MockDataGenerator],
    - [data_fetcher.py]   the [OmniGridFetcher] HTTP client,
    - [omni_analytics.py] the [OmniGridAnalyticsTool] orchestrator.

    Modelling choices, stated once:
    - a record (a Python [dict] with string keys) is a [gmap string value];
      equality of maps is then equality of dicts (key order is not observable);
    - a scalar is a number, a string or the missing marker.  Python compares
      [1 == 1.0], so [int] and [float] cells are one constructor [VNum] over
      exact rationals; IEEE rounding is outside the model.  [None] and [NaN]
      are the one marker [VNull];
    - pandas, [random], [datetime] and [requests] are libraries, not code of
      the repository: the frame operations the sources call are modelled by
      their documented behaviour, the random generator by an interface, the
      clock and the network by fields of an explicit world state;
    - a Python exception is the [Raise] outcome of a [result]. *)

From Stdlib Require Import ZArith QArith Qcanon Qround String Ascii List.
From Stdlib Require Import Sorting.Sorted.
From stdpp Require Import base decidable option numbers list sorting.
From stdpp Require Import countable strings pretty gmap fin_sets fin_maps.

Local Open Scope string_scope.
Local Open Scope list_scope.
Local Open Scope Z_scope.
Local Set Warnings "-register-all".

(** ** Scalars and records *)

Inductive value : Type :=
  | VNum (x : Qc)
  | VStr (s : string)
  | VNull.

Global Instance value_eq_dec : EqDecision value.
Proof. solve_decision. Defined.

Definition value_to_sum (v : value) : Qc + string + unit :=
  match v with
  | VNum x => inl (inl x)
  | VStr s => inl (inr s)
  | VNull => inr tt
  end.

Definition value_of_sum (s : Qc + string + unit) : value :=
  match s with
  | inl (inl x) => VNum x
  | inl (inr s) => VStr s
  | inr _ => VNull
  end.

Global Instance value_countable : Countable value.
Proof.
  refine (inj_countable' value_to_sum value_of_sum _).
  by intros [].
Defined.

Abbreviation record := (gmap string value).

Definition is_num (v : value) : bool :=
  match v with VNum _ => true | _ => false end.

Definition is_null (v : value) : bool :=
  match v with VNull => true | _ => false end.

(** Python exceptions the modelled calls can raise. *)
Inductive exn : Type :=
  | TypeError
  | ValueError
  | AttributeError
  | IndexError.

Inductive result (A : Type) : Type :=
  | Ok (a : A)
  | Raise (e : exn).
Arguments Ok {A} a.
Arguments Raise {A} e.


(** ** A state-and-exception monad for methods

    A method of an object with state [S] is a function from the state to an
    outcome and the state afterwards. *)

Definition M (S A : Type) : Type := S → result A * S.

Definition mret' {S A} (a : A) : M S A := λ s, (Ok a, s).

Definition mbind' {S A B} (m : M S A) (k : A → M S B) : M S B :=
  λ s, match m s with
       | (Ok a, s') => k a s'
       | (Raise e, s') => (Raise e, s')
       end.

Definition raise {S A} (e : exn) : M S A := λ s, (Raise e, s).

Definition read {S A} (f : S → A) : M S A := λ s, (Ok (f s), s).

Definition modify {S} (f : S → S) : M S unit := λ s, (Ok tt, f s).

Definition lift_result {S A} (r : result A) : M S A := λ s, (r, s).

Notation "'let*' x ':=' m 'in' k" := (mbind' m (λ x, k))
  (at level 10, x name, m at level 100, k at level 200, only parsing).
Notation "'do' m1 ';;' m2" := (mbind' m1 (λ _, m2))
  (at level 10, m1 at level 99, m2 at level 200, only parsing).

(** ** The pandas frame

    A frame holds the dtype of every column and its rows; every row has
    exactly the frame's columns as keys. *)
Module Pandas.

Inductive dtype : Type :=
  | Number   (* int64 or float64: selected by [np.number] *)
  | Object.

Global Instance dtype_eq_dec : EqDecision dtype.
Proof. solve_decision. Defined.

Record DataFrame : Type := mkDataFrame {
  dtypes : gmap string dtype;
  rows : list record
}.

Definition columns (df : DataFrame) : gset string := dom (dtypes df).

(** [row.get(col)], with pandas' NaN for a key the row lacks. *)
Definition cell (r : record) (col : string) : value :=
  default VNull (r !! col).

(** dtype inference of the constructor: a column of numbers (with or
    without missing entries) is numeric, anything else is [object]. *)
Definition infer_dtype (cells : list value) : dtype :=
  if forallb (λ v, is_num v || is_null v) cells && existsb is_num cells
  then Number else Object.

Definition reindex (cols : gset string) (r : record) : record :=
  set_to_map (λ c, (c, cell r c)) cols.

(** [pd.DataFrame(data)] for a list of dicts: the columns are the union
    of the keys, a missing key becomes NaN. *)
Definition DataFrame_of_records (data : list record) : DataFrame :=
  let cols : gset string := ⋃ (dom <$> data) in
  {| dtypes := set_to_map (λ c, (c, infer_dtype ((λ r, cell r c) <$> data))) cols;
     rows := reindex cols <$> data |}.

(** [df[col]] as the list of its cells. *)
Definition series (df : DataFrame) (col : string) : list value :=
  (λ r, cell r col) <$> rows df.

Definition column_dtype (df : DataFrame) (col : string) : dtype :=
  default Object (dtypes df !! col).

(** [df.select_dtypes(include=[np.number]).columns] *)
Definition select_dtypes_number (df : DataFrame) : gset string :=
  dom (filter (λ kv, kv.2 = Number) (dtypes df)).

Definition copy (df : DataFrame) : DataFrame := df.

(** [df[mask]]: boolean indexing keeps columns and dtypes. *)
Definition select_rows (df : DataFrame) (mask : record → bool) : DataFrame :=
  {| dtypes := dtypes df; rows := List.filter mask (rows df) |}.

(** Elementwise [==] of a cell with a scalar: a missing cell equals
    nothing, a number never equals a string. *)
Definition py_eq (a b : value) : bool :=
  match a, b with
  | VNum x, VNum y => bool_decide (x = y)
  | VStr s, VStr t => bool_decide (s = t)
  | _, _ => false
  end.

(** [Series.isin(values)]: as [==], and NaN is found among NaN. *)
Definition isin (a : value) (values : list value) : bool :=
  existsb (λ v, py_eq a v || (is_null a && is_null v)) values.

(** [df.to_dict('records')] *)
Definition to_dict_records (df : DataFrame) : list record := rows df.

End Pandas.

(** ** Series reductions *)
Module Series.

(** A float computed by a reduction, kept exact: a rational, the square
    root of one, a ratio over a square root, or NaN. *)
Inductive pyfloat : Type :=
  | FNum (x : Qc)
  | FSqrt (x : Qc)
  | FRatioSqrt (n d : Qc)
  | FNaN.

Definition num_of (v : value) : option Qc :=
  match v with VNum x => Some x | _ => None end.

(** The non-missing numbers of a series ([skipna=True]). *)
Definition nums (cells : list value) : list Qc := omap num_of cells.

Definition Qc_of_nat (n : nat) : Qc := Qc_of_Z (Z.of_nat n).

Definition qsum (xs : list Qc) : Qc := foldr Qcplus 0%Qc xs.

Definition mean_of (xs : list Qc) : option Qc :=
  match xs with
  | [] => None
  | _ => Some (qsum xs / Qc_of_nat (length xs))%Qc
  end.

Definition float_of (o : option Qc) : pyfloat :=
  match o with Some x => FNum x | None => FNaN end.

Definition mean (cells : list value) : pyfloat := float_of (mean_of (nums cells)).

Definition sorted_nums (cells : list value) : list Qc :=
  merge_sort Qcle (nums cells).

(** Linear interpolation at position [q * (n - 1)] of the sorted values. *)
Definition interpolate (xs : list Qc) (q : Qc) : option Qc :=
  match xs with
  | [] => None
  | x0 :: _ =>
      let pos := (q * Qc_of_nat (length xs - 1))%Qc in
      let lo := Z.to_nat (Qfloor pos) in
      let frac := (pos - Qc_of_Z (Qfloor pos))%Qc in
      let a := nth lo xs x0 in
      let b := nth (S lo) xs a in
      Some (a + frac * (b - a))%Qc
  end.

Definition half : Qc := Q2Qc (1 # 2).

Definition median (cells : list value) : pyfloat :=
  float_of (interpolate (sorted_nums cells) half).

Definition sq_dev (m : Qc) (xs : list Qc) : Qc :=
  qsum ((λ x, (x - m) * (x - m))%Qc <$> xs).

(** Sample standard deviation ([ddof=1]). *)
Definition std (cells : list value) : pyfloat :=
  let xs := nums cells in
  match mean_of xs with
  | Some m =>
      if decide (2 ≤ length xs)%nat
      then FSqrt (sq_dev m xs / Qc_of_nat (length xs - 1))%Qc
      else FNaN
  | None => FNaN
  end.

Definition min (cells : list value) : pyfloat :=
  float_of (head (sorted_nums cells)).

Definition max (cells : list value) : pyfloat :=
  float_of (last (sorted_nums cells)).

Definition count (cells : list value) : nat :=
  length (List.filter (λ v, negb (is_null v)) cells).

(** [Series.quantile(q)]: the fraction is validated first, then the dtype. *)
Definition quantile (dt : Pandas.dtype) (cells : list value) (q : Qc)
  : result pyfloat :=
  if decide (0 ≤ q ∧ q ≤ 1)%Qc then
    match dt with
    | Pandas.Number => Ok (float_of (interpolate (sorted_nums cells) q))
    | Pandas.Object => Raise TypeError
    end
  else Raise ValueError.

(** [Series.value_counts().to_dict()]: missing entries are not counted. *)
Definition value_counts (cells : list value) : gmap value nat :=
  foldr (λ v m, if is_null v then m else <[v := S (default 0%nat (m !! v))]> m)
        ∅ cells.

End Series.

(** ** Ordering, grouping and correlation on frames *)
Module Frame.
Import Pandas Series.

(** Stable insertion sort: among rows that compare equal the earlier one
    stays first (pandas' [keep='first']). *)
Fixpoint insert_by {A} (R : relation A) `{!RelDecision R}
    (x : A) (l : list A) : list A :=
  match l with
  | [] => [x]
  | y :: l' => if decide (R x y) then x :: l else y :: insert_by R x l'
  end.

Definition stable_sort {A} (R : relation A) `{!RelDecision R}
    (l : list A) : list A :=
  foldr (insert_by R) [] l.

Definition rank (v : value) : nat :=
  match v with VNum _ => 0 | VStr _ => 1 | VNull => 2 end.

(** Order of two cells in a sorted column: numbers by value in the
    requested direction, missing entries last. *)
Definition cell_before (ascending : bool) (a b : value) : Prop :=
  match a, b with
  | VNum x, VNum y => if ascending then (x ≤ y)%Qc else (y ≤ x)%Qc
  | _, _ => (rank a ≤ rank b)%nat
  end.

Global Instance cell_before_dec ascending : RelDecision (cell_before ascending).
Proof.
  intros [x| |] [y| |]; simpl; try apply _; destruct ascending; apply _.
Defined.

Definition row_before (ascending : bool) (col : string) : relation record :=
  λ r1 r2, cell_before ascending (cell r1 col) (cell r2 col).

Global Instance row_before_dec ascending col : RelDecision (row_before ascending col).
Proof. intros r1 r2. unfold row_before. apply _. Defined.

(** [df.nsmallest(n, col)] ([ascending]) and [df.nlargest(n, col)]: the
    dtype is checked first, a count [n <= 0] selects nothing, and rows with
    a missing entry come after all others, as current pandas orders them. *)
Definition select_n (ascending : bool) (df : DataFrame) (n : Z) (col : string)
  : result DataFrame :=
  match column_dtype df col with
  | Object => Raise TypeError
  | Number =>
      Ok {| dtypes := dtypes df;
            rows := take (Z.to_nat n)
                         (stable_sort (row_before ascending col) (rows df)) |}
  end.

Definition nlargest := select_n false.
Definition nsmallest := select_n true.

(** The cells of [value_col] in the rows whose [category_col] is [k]. *)
Definition group_cells (df : DataFrame) (category_col value_col : string)
    (k : value) : list value :=
  (λ r, cell r value_col)
    <$> List.filter (λ r, bool_decide (cell r category_col = k)) (rows df).

Definition str_of (v : value) : option string :=
  match v with VStr s => Some s | _ => None end.

(** One group reduced by the named function.  The docstring of
    [aggregate_by_category] names 'sum', 'mean' and 'count'; the further
    names pandas resolves are not modelled and end as an unknown
    attribute. *)
Definition agg (agg_func : string) (dt : dtype) (cells : list value)
  : result value :=
  let present := List.filter (λ v, negb (is_null v)) cells in
  if decide (agg_func = "sum") then
    if forallb is_num present then Ok (VNum (qsum (nums present)))
    else if forallb (λ v, negb (is_num v)) present
         then Ok (VStr (foldr String.append "" (omap str_of present)))
         else Raise TypeError
  else if decide (agg_func = "mean") then
    match dt with
    | Number => Ok (from_option VNum VNull (mean_of (nums present)))
    | Object => Raise TypeError
    end
  else if decide (agg_func = "count") then
    Ok (VNum (Qc_of_nat (length present)))
  else Raise AttributeError.

(** [df.groupby(category_col)[value_col].agg(agg_func).to_dict()]: one
    entry per non-missing key. *)
Definition groupby_agg (df : DataFrame) (category_col value_col agg_func : string)
  : result (gmap value value) :=
  foldr (λ k acc,
           match acc with
           | Raise e => Raise e
           | Ok m =>
               if is_null k then Ok m
               else match agg agg_func (column_dtype df value_col)
                              (group_cells df category_col value_col k) with
                    | Ok v => Ok (<[k := v]> m)
                    | Raise e => Raise e
                    end
           end)
        (Ok ∅) (series df category_col).

(** Pearson correlation of two columns over the rows where both are
    present. *)
Definition pearson (df : DataFrame) (a b : string) : pyfloat :=
  let pairs := omap (λ r, match cell r a, cell r b with
                          | VNum x, VNum y => Some (x, y)
                          | _, _ => None
                          end) (rows df) in
  let xs := fst <$> pairs in
  let ys := snd <$> pairs in
  match mean_of xs, mean_of ys with
  | Some mx, Some my =>
      let sxy := qsum ((λ p, (p.1 - mx) * (p.2 - my))%Qc <$> pairs) in
      let d := (sq_dev mx xs * sq_dev my ys)%Qc in
      if decide (d = 0%Qc) then FNaN else FRatioSqrt sxy d
  | _, _ => FNaN
  end.

(** [numeric_df.corr()] as a map from pairs of numeric columns. *)
Definition corr (df : DataFrame) : gmap (string * string) pyfloat :=
  let cols := elements (select_dtypes_number df) in
  list_to_map (a ← cols; b ← cols; [((a, b), pearson df a b)]).

(** [df.empty]: some axis has length zero. *)
Definition empty_frame (cols : gset string) (df : DataFrame) : bool :=
  bool_decide (cols = ∅) || bool_decide (rows df = []).

(** [int(df.duplicated().sum())]: rows equal to an earlier row. *)
Fixpoint duplicated_count (seen : list record) (rs : list record) : nat :=
  match rs with
  | [] => 0
  | r :: rs' =>
      (if bool_decide (r ∈ seen) then 1 else 0) + duplicated_count (r :: seen) rs'
  end%nat.

End Frame.

(** ** analytics.py: the [DataAnalytics] engine *)
Module Analytics.
Import Pandas.

Record DataAnalytics : Type := mkDataAnalytics {
  df : DataFrame;
  original_data : list record
}.

(** [DataAnalytics.__init__] *)
Definition init (data : list record) : DataAnalytics :=
  {| df := DataFrame_of_records data; original_data := data |}.

Abbreviation method := (M DataAnalytics).

Record stats : Type := mkStats {
  st_mean : Series.pyfloat;
  st_median : Series.pyfloat;
  st_std : Series.pyfloat;
  st_min : Series.pyfloat;
  st_max : Series.pyfloat;
  st_count : nat
}.

Definition column_stats (d : DataFrame) (col : string) : stats :=
  {| st_mean := Series.mean (series d col);
     st_median := Series.median (series d col);
     st_std := Series.std (series d col);
     st_min := Series.min (series d col);
     st_max := Series.max (series d col);
     st_count := Series.count (series d col) |}.

Definition get_summary_statistics : method (gmap string stats) :=
  let* self_df := read df in
  let numeric_cols := elements (select_dtypes_number self_df) in
  mret' (foldl (λ summary col, <[col := column_stats self_df col]> summary)
               ∅ numeric_cols).

Definition get_categorical_distribution (column : string)
  : method (gmap value nat) :=
  let* self_df := read df in
  if decide (column ∉ columns self_df) then mret' ∅
  else mret' (Series.value_counts (series self_df column)).

Definition get_correlation_matrix
  : method (option (gmap (string * string) Series.pyfloat)) :=
  let* self_df := read df in
  if Frame.empty_frame (select_dtypes_number self_df) self_df then mret' None
  else mret' (Some (Frame.corr self_df)).

Definition aggregate_by_category (category_col value_col agg_func : string)
  : method (gmap value value) :=
  let* self_df := read df in
  if decide (category_col ∉ columns self_df ∨ value_col ∉ columns self_df)
  then mret' ∅
  else lift_result (Frame.groupby_agg self_df category_col value_col agg_func).

Definition get_top_n (column : string) (n : Z) (ascending : bool)
  : method (list record) :=
  let* self_df := read df in
  if decide (column ∉ columns self_df) then mret' []
  else
    let* top_df := lift_result (if negb ascending
                                then Frame.nlargest self_df n column
                                else Frame.nsmallest self_df n column) in
    mret' (to_dict_records top_df).

(** A condition value: a scalar, or a list or tuple of scalars. *)
Inductive cond : Type :=
  | CScalar (v : value)
  | CList (vs : list value).

Definition filter_step (filtered_df : DataFrame) (c : string * cond) : DataFrame :=
  let '(col, value) := c in
  if decide (col ∈ columns filtered_df) then
    match value with
    | CList vs => select_rows filtered_df (λ r, isin (cell r col) vs)
    | CScalar v => select_rows filtered_df (λ r, py_eq (cell r col) v)
    end
  else filtered_df.

Definition filter_data (conditions : list (string * cond))
  : method (list record) :=
  let* self_df := read df in
  let filtered_df := copy self_df in
  let filtered_df := foldl filter_step filtered_df conditions in
  mret' (to_dict_records filtered_df).

Definition default_percentiles : list Z := [25; 50; 75; 90; 95; 99].

(** The key [f'p{p}'] of a percentile. *)
Definition percentile_key (p : Z) : string := "p" +:+ pretty p.

Fixpoint percentile_loop (d : DataFrame) (column : string)
    (ps : list Z) (result : gmap string Series.pyfloat)
  : method (gmap string Series.pyfloat) :=
  match ps with
  | [] => mret' result
  | p :: ps' =>
      let* x := lift_result (Series.quantile (column_dtype d column)
                                             (series d column)
                                             (Qc_of_Z p / Qc_of_Z 100)%Qc) in
      percentile_loop d column ps' (<[percentile_key p := x]> result)
  end.

Definition get_percentiles (column : string) (percentiles : option (list Z))
  : method (gmap string Series.pyfloat) :=
  let percentiles := default default_percentiles percentiles in
  let* self_df := read df in
  if decide (column ∉ columns self_df) then mret' ∅
  else percentile_loop self_df column percentiles ∅.

Record quality_report : Type := mkQuality {
  total_rows : nat;
  total_columns : nat;
  missing_values : gmap string nat;
  duplicate_rows : nat;
  column_types : gmap string dtype
}.

Definition get_data_quality_report : method quality_report :=
  let* self_df := read df in
  mret' {| total_rows := length (rows self_df);
           total_columns := size (columns self_df);
           missing_values :=
             set_to_map (λ c, (c, length (List.filter is_null (series self_df c))))
                        (columns self_df);
           duplicate_rows := Frame.duplicated_count [] (rows self_df);
           column_types := dtypes self_df |}.

(** Calling a method on a freshly constructed engine. *)
Definition call {A} (data : list record) (m : method A) : result A :=
  (m (init data)).1.

End Analytics.

(** ** The [datetime] values the generator formats

    A naive datetime is kept as its proleptic Gregorian ordinal (day 1 is
    0001-01-01) and its time of day; adding a [timedelta] of whole days moves
    the ordinal.  The calendar conversion is the one of CPython's
    [_ord2ymd]; the range check against [MINYEAR] and [MAXYEAR] is outside
    the model. *)
Module Datetime.
Local Open Scope Z_scope.

Record datetime : Type := mkDatetime {
  toordinal : Z;
  hour : Z;
  minute : Z;
  second : Z;
  microsecond : Z
}.

Global Instance datetime_eq_dec : EqDecision datetime.
Proof. solve_decision. Defined.

(** [self + timedelta(days=k)] *)
Definition add_days (d : datetime) (k : Z) : datetime :=
  {| toordinal := toordinal d + k;
     hour := hour d; minute := minute d; second := second d;
     microsecond := microsecond d |}.

Definition is_leap (year : Z) : bool :=
  (year mod 4 =? 0) && (negb (year mod 100 =? 0) || (year mod 400 =? 0)).

Definition DAYS_IN_MONTH : list Z :=
  [-1; 31; 28; 31; 30; 31; 30; 31; 31; 30; 31; 30; 31].

Definition DAYS_BEFORE_MONTH : list Z :=
  [-1; 0; 31; 59; 90; 120; 151; 181; 212; 243; 273; 304; 334].

Definition DI400Y : Z := 146097.
Definition DI100Y : Z := 36524.
Definition DI4Y : Z := 1461.

Definition b2z (b : bool) : Z := if b then 1 else 0.

(** ordinal -> (year, month, day) *)
Definition ord2ymd (n : Z) : Z * Z * Z :=
  let n := n - 1 in
  let n400 := n / DI400Y in
  let n := n mod DI400Y in
  let year := n400 * 400 + 1 in
  let n100 := n / DI100Y in
  let n := n mod DI100Y in
  let n4 := n / DI4Y in
  let n := n mod DI4Y in
  let n1 := n / 365 in
  let n := n mod 365 in
  let year := year + n100 * 100 + n4 * 4 + n1 in
  if (n1 =? 4) || (n100 =? 4) then (year - 1, 12, 31)
  else
    let leapyear := (n1 =? 3) && (negb (n4 =? 24) || (n100 =? 3)) in
    let month := Z.shiftr (n + 50) 5 in
    let preceding :=
      nth (Z.to_nat month) DAYS_BEFORE_MONTH 0
      + b2z ((2 <? month) && leapyear) in
    let '(month, preceding) :=
      if n <? preceding
      then (month - 1,
            preceding - (nth (Z.to_nat (month - 1)) DAYS_IN_MONTH 0
                         + b2z ((month - 1 =? 2) && leapyear)))
      else (month, preceding) in
    (year, month, n - preceding + 1).

(** ["%0*d"]: decimal digits, zero-padded on the left to [width]. *)
Definition zero_pad (width : nat) (n : Z) : string :=
  let digits := pretty (Z.abs n) in
  let padded :=
    String.concat "" (replicate (width - String.length digits) "0") +:+ digits in
  if n <? 0 then "-" +:+ padded else padded.

(** [datetime.isoformat()]: the microseconds are printed when non-zero. *)
Definition isoformat (d : datetime) : string :=
  let '(y, m, dd) := ord2ymd (toordinal d) in
  zero_pad 4 y +:+ "-" +:+ zero_pad 2 m +:+ "-" +:+ zero_pad 2 dd +:+ "T"
  +:+ zero_pad 2 (hour d) +:+ ":" +:+ zero_pad 2 (minute d) +:+ ":"
  +:+ zero_pad 2 (second d)
  +:+ (if microsecond d =? 0 then "" else "." +:+ zero_pad 6 (microsecond d)).

End Datetime.

(** ** The outside world: random generator, clock, console, network *)

(** Python's [random] module as an interface: seeding fixes the state, and
    every draw is a function of the state.  [rng_random] is [random()],
    a float in [0, 1); [rng_randbelow n] is [_randbelow(n)], an integer
    below [n]. *)
Class PyRandom : Type := {
  rng_state : Type;
  rng_seed : Z → rng_state;
  rng_random : rng_state → Qc * rng_state;
  rng_randbelow : Z → rng_state → Z * rng_state;
  rng_randbelow_range :
    ∀ n s, 0 < n → 0 ≤ (rng_randbelow n s).1 < n
}.

Module Http.

Inductive json : Type :=
  | JNull
  | JBool (b : bool)
  | JNum (x : Qc)
  | JStr (s : string)
  | JArr (items : list json)
  | JObj (fields : list (string * json)).

(** The class of the exception [response.json()] raises on a body that is
    not JSON: [json.JSONDecodeError], or the subclass of it that recent
    versions of [requests] raise, which is a [RequestException] too. *)
Inductive decode_error : Type :=
  | JSONDecodeError
  | RequestsJSONDecodeError.

Inductive body : Type :=
  | Decoded (j : json)
  | Undecodable (cls : decode_error) (msg : string).

(** What [session.get] does: it raises a [RequestException] (connection
    error, timeout, invalid URL), or returns a response. *)
Inductive outcome : Type :=
  | RequestException (msg : string)
  | Response (status_code : Z) (content : body).

Record request : Type := mkRequest {
  req_url : string;
  req_params : option (list (string * string));
  req_timeout : Z
}.

End Http.

Section World.
Context `{PyRandom}.

Record World : Type := mkWorld {
  py_random : rng_state;           (* the state of the [random] module *)
  np_random_seed : option Z;       (* the last seed given to [np.random] *)
  clock : Datetime.datetime;       (* what [datetime.now()] reads *)
  stdout : list string;            (* the lines printed so far *)
  network : nat → Http.request → Http.outcome;
  requests_made : nat
}.

Definition set_py_random (s : rng_state) (w : World) : World :=
  {| py_random := s; np_random_seed := np_random_seed w; clock := clock w;
     stdout := stdout w; network := network w;
     requests_made := requests_made w |}.

Definition set_np_random_seed (z : Z) (w : World) : World :=
  {| py_random := py_random w; np_random_seed := Some z; clock := clock w;
     stdout := stdout w; network := network w;
     requests_made := requests_made w |}.

Definition print (line : string) : M World unit :=
  modify (λ w, {| py_random := py_random w;
                  np_random_seed := np_random_seed w; clock := clock w;
                  stdout := stdout w ++ [line]; network := network w;
                  requests_made := requests_made w |}).

(** [session.get(url, params=..., timeout=...)]: the next answer of the
    network. *)
Definition session_get (rq : Http.request) : M World Http.outcome :=
  λ w, (Ok (network w (requests_made w) rq),
        {| py_random := py_random w; np_random_seed := np_random_seed w;
           clock := clock w; stdout := stdout w; network := network w;
           requests_made := S (requests_made w) |}).

Definition datetime_now : M World Datetime.datetime := read clock.

(** A draw: run the generator on the module's state and store the new
    state. *)
Definition draw {A} (f : rng_state → A * rng_state) : M World A :=
  λ w, let '(a, s) := f (py_random w) in (Ok a, set_py_random s w).

(** [random.seed(a)] *)
Definition random_seed (a : Z) : M World unit :=
  modify (set_py_random (rng_seed a)).

(** [np.random.seed(seed)]: the legacy seeding accepts 32-bit seeds only. *)
Definition np_random_seed_set (seed : Z) : M World unit :=
  if decide (0 ≤ seed < 2 ^ 32) then modify (set_np_random_seed seed)
  else raise ValueError.

(** [random.choice(seq)] is [seq[self._randbelow(len(seq))]]. *)
Definition random_choice {A} (seq : list A) : M World A :=
  match seq with
  | [] => raise IndexError
  | _ =>
      let* i := draw (rng_randbelow (Z.of_nat (length seq))) in
      match seq !! Z.to_nat i with
      | Some x => mret' x
      | None => raise IndexError
      end
  end.

(** [random.randint(a, b)] is [a + self._randbelow(b - a + 1)]. *)
Definition random_randint (a b : Z) : M World Z :=
  if decide (b - a + 1 ≤ 0) then raise ValueError
  else
    let* r := draw (rng_randbelow (b - a + 1)) in
    mret' (a + r).

(** [random.uniform(a, b)] is [a + (b - a) * self.random()]. *)
Definition random_uniform (a b : Qc) : M World Qc :=
  let* r := draw rng_random in
  mret' (a + (b - a) * r)%Qc.

End World.

(** The builtin [round(x, ndigits)]: to the nearest multiple of
    [10 ** -ndigits], a tie going to the even neighbour. *)
Definition round_half_even (x : Qc) : Z :=
  let f := Qfloor x in
  let frac := (x - Qc_of_Z f)%Qc in
  if decide (frac < Series.half)%Qc then f
  else if decide (Series.half < frac)%Qc then f + 1
  else if Z.even f then f else f + 1.

Definition py_round (x : Qc) (ndigits : nat) : Qc :=
  let scale := Qc_of_Z (10 ^ Z.of_nat ndigits) in
  (Qc_of_Z (round_half_even (x * scale)) / scale)%Qc.

(** ** mock_data.py: the [MockDataGenerator] *)
Module MockData.
Section Generator.
Context `{PyRandom}.

(** [MockDataGenerator.__init__]: both library generators are seeded. *)
Definition init (seed : Z) : M World unit :=
  do random_seed seed ;;
  np_random_seed_set seed.

Definition categories : list string := ["A"; "B"; "C"; "D"; "E"].
Definition regions : list string := ["North"; "South"; "East"; "West"; "Central"].
Definition statuses : list string := ["Active"; "Inactive"; "Pending"; "Completed"].
Definition priorities : list string := ["High"; "Medium"; "Low"].

Definition qz (z : Z) : Qc := Qc_of_Z z.

(** One iteration of the loop: the draws happen in the order in which
    the dict display lists its entries. *)
Definition make_row (base_date : Datetime.datetime) (i : Z) : M World record :=
  let* category := random_choice categories in
  let* region := random_choice regions in
  let* status := random_choice statuses in
  let* value := random_uniform (qz 10) (qz 1000) in
  let* quantity := random_randint 1 100 in
  let* score := random_uniform (qz 0) (qz 100) in
  let* days := random_randint 0 365 in
  let* priority := random_choice priorities in
  let* efficiency := random_uniform Series.half (qz 1) in
  let* cost := random_uniform (qz 100) (qz 5000) in
  let* revenue := random_uniform (qz 150) (qz 6000) in
  mret' (<["id" := VNum (qz (i + 1))]>
        (<["category" := VStr category]>
        (<["region" := VStr region]>
        (<["status" := VStr status]>
        (<["value" := VNum (py_round value 2)]>
        (<["quantity" := VNum (qz quantity)]>
        (<["score" := VNum (py_round score 2)]>
        (<["timestamp" :=
             VStr (Datetime.isoformat (Datetime.add_days base_date days))]>
        (<["priority" := VStr priority]>
        (<["efficiency" := VNum (py_round efficiency 3)]>
        (<["cost" := VNum (py_round cost 2)]>
        (<["revenue" := VNum (py_round revenue 2)]> ∅)))))))))))).

(** [for i in range(...)]: [todo] iterations are left, [i] is the next
    index. *)
Fixpoint grid_loop (base_date : Datetime.datetime) (todo : nat) (i : Z)
    (data : list record) : M World (list record) :=
  match todo with
  | O => mret' data
  | S todo' =>
      let* row := make_row base_date i in
      grid_loop base_date todo' (i + 1) (data ++ [row])
  end.

Definition generate_grid_data (num_rows : Z) : M World (list record) :=
  let* now := datetime_now in
  let base_date := Datetime.add_days now (-365) in
  grid_loop base_date (Z.to_nat num_rows) 0 [].


End Generator.
End MockData.

(** ** data_fetcher.py: the [OmniGridFetcher] *)
Module Fetcher.
Import Http.
Section Fetcher.
Context `{PyRandom}.

Record OmniGridFetcher : Type := mkFetcher { base_url : string }.

Definition default_base_url : string :=
  "https://omni-grid-2-0-architect-256533412071.us-west1.run.app".

(** [OmniGridFetcher.__init__] *)
Definition init : OmniGridFetcher := {| base_url := default_base_url |}.

Fixpoint drop_slashes (cs : list ascii) : list ascii :=
  match cs with
  | c :: cs' => if bool_decide (c = "/"%char) then drop_slashes cs' else cs
  | [] => []
  end.

(** [s.rstrip('/')] *)
Definition rstrip_slash (s : string) : string :=
  string_of_list_ascii (rev (drop_slashes (rev (list_ascii_of_string s)))).

(** What the [try] block of [fetch_data] ends with: the value it
    returns, or the exception that leaves it. *)
Inductive raised : Type :=
  | RaisedRequest (msg : string)
  | RaisedDecode (cls : decode_error) (msg : string).

(** [response.raise_for_status()] raises for 4xx and 5xx. *)
Definition raise_for_status (status_code : Z) : bool :=
  bool_decide (400 ≤ status_code < 600).

Definition try_fetch (url : string) (params : option (list (string * string)))
    (timeout : Z) : M World (json + raised) :=
  let* response := session_get {| req_url := url; req_params := params;
                                  req_timeout := timeout |} in
  match response with
  | RequestException msg => mret' (inr (RaisedRequest msg))
  | Response status_code content =>
      if raise_for_status status_code
      then mret' (inr (RaisedRequest ("HTTPError " +:+ pretty status_code)))
      else match content with
           | Decoded j => mret' (inl j)
           | Undecodable cls msg => mret' (inr (RaisedDecode cls msg))
           end
  end.

(** The [except] clauses in order: a [RequestException] (which the
    decode error of [requests] is as well), then [json.JSONDecodeError].
    [None] is [JNull]. *)
Definition fetch_data (self : OmniGridFetcher) (endpoint : string)
    (params : option (list (string * string))) (timeout : Z) : M World json :=
  let url := rstrip_slash (base_url self +:+ "/" +:+ endpoint) in
  let* r := try_fetch url params timeout in
  match r with
  | inl j => mret' j
  | inr (RaisedRequest msg)
  | inr (RaisedDecode RequestsJSONDecodeError msg) =>
      do print ("Error fetching data: " +:+ msg) ;;
      mret' JNull
  | inr (RaisedDecode JSONDecodeError msg) =>
      do print ("Error decoding JSON: " +:+ msg) ;;
      mret' JNull
  end.

(** Truth value of a decoded body. *)
Definition truthy (j : json) : bool :=
  match j with
  | JNull => false
  | JBool b => b
  | JNum x => negb (bool_decide (x = 0%Qc))
  | JStr s => negb (bool_decide (s = ""))
  | JArr items => negb (bool_decide (length items = 0%nat))
  | JObj fields => negb (bool_decide (length fields = 0%nat))
  end.

Definition obj_get (fields : list (string * json)) (k : string) : option json :=
  (λ p, p.2.2) <$> list_find (λ kv, kv.1 = k) (rev fields).

Definition fetch_grid_data (self : OmniGridFetcher) : M World json :=
  let* data := fetch_data self "grid" None 30 in
  match data with
  | JArr _ => if truthy data then mret' data else mret' JNull
  | JObj fields =>
      if truthy data then mret' (default (JArr [data]) (obj_get fields "data"))
      else mret' JNull
  | _ => mret' JNull
  end.


(** [health_check]: any exception of the request is swallowed. *)
Definition health_check (self : OmniGridFetcher) : M World bool :=
  let* response := session_get {| req_url := base_url self;
                                  req_params := None; req_timeout := 5 |} in
  match response with
  | Response status_code _ => mret' (bool_decide (status_code = 200))
  | RequestException _ => mret' false
  end.

End Fetcher.
End Fetcher.

(** ** omni_analytics.py: the [OmniGridAnalyticsTool] orchestrator *)
Module Orchestrator.
Import Http.
Section Tool.
Context `{PyRandom}.

(** What [self.data] holds: [None], the records of the generator, or
    whatever [fetch_grid_data] returned. *)
Inductive py_data : Type :=
  | DNone
  | DRecords (l : list record)
  | DJson (j : json).

Record OmniGridAnalyticsTool : Type := mkTool {
  use_mock_data : bool;
  fetcher : Fetcher.OmniGridFetcher;
  data : py_data;
  analytics : option Analytics.DataAnalytics
}.

(** A method of the tool acts on the tool and on the world. *)
Record ToolState : Type := mkToolState {
  self : OmniGridAnalyticsTool;
  world : World
}.

Definition in_world {A} (m : M World A) : M ToolState A :=
  λ st, let '(r, w) := m (world st) in (r, {| self := self st; world := w |}).

Definition set_data (d : py_data) : M ToolState unit :=
  modify (λ st, {| self := {| use_mock_data := use_mock_data (self st);
                              fetcher := fetcher (self st);
                              data := d;
                              analytics := analytics (self st) |};
                   world := world st |}).

Definition set_analytics (a : Analytics.DataAnalytics) : M ToolState unit :=
  modify (λ st, {| self := {| use_mock_data := use_mock_data (self st);
                              fetcher := fetcher (self st);
                              data := data (self st);
                              analytics := Some a |};
                   world := world st |}).

(** [OmniGridAnalyticsTool.__init__]; the default generator is seeded
    with 42.  The visualizer it also creates is not modelled. *)
Definition init (use_mock_data : bool) : M World OmniGridAnalyticsTool :=
  do MockData.init 42 ;;
  mret' {| use_mock_data := use_mock_data; fetcher := Fetcher.init;
           data := DNone; analytics := None |}.

(** A flat JSON object as a record, when all its values are scalars of
    the data model. *)
Definition value_of_json (j : json) : option value :=
  match j with
  | JNull => Some VNull
  | JNum x => Some (VNum x)
  | JStr s => Some (VStr s)
  | _ => None
  end.

Definition record_of_json (j : json) : option record :=
  match j with
  | JObj fields =>
      list_to_map <$> mapM (λ kv, (λ v, (kv.1, v)) <$> value_of_json kv.2)
                           (rev fields)
  | _ => None
  end.

Definition records_of_json (j : json) : option (list record) :=
  match j with
  | JArr items => mapM record_of_json items
  | _ => None
  end.

(** [pd.DataFrame] on a payload that is not a list of flat records is
    not modelled: the engine it yields is a parameter. *)
Variable DataAnalytics_of_json : json → result Analytics.DataAnalytics.

(** [DataAnalytics(self.data)] *)
Definition new_analytics (d : py_data) : result Analytics.DataAnalytics :=
  match d with
  | DRecords l => Ok (Analytics.init l)
  | DJson j =>
      match records_of_json j with
      | Some l => Ok (Analytics.init l)
      | None => DataAnalytics_of_json j
      end
  | DNone => DataAnalytics_of_json JNull
  end.

Definition truthy_data (d : py_data) : bool :=
  match d with
  | DNone => false
  | DRecords l => negb (bool_decide (length l = 0%nat))
  | DJson j => Fetcher.truthy j
  end.

(** [len(self.data)] *)
Definition len_data (d : py_data) : result nat :=
  match d with
  | DRecords l => Ok (length l)
  | DJson (JArr items) => Ok (length items)
  | DJson (JObj fields) => Ok (length fields)
  | DJson (JStr s) => Ok (String.length s)
  | _ => Raise TypeError
  end.

Definition rule : string := String.concat "" (replicate 60 "=").

Definition say (line : string) : M ToolState unit := in_world (print line).

(** [self.data = self.mock_generator.generate_grid_data(num_records)]
    followed by the line that reports the count. *)
Definition use_mock_generator (num_records : Z) : M ToolState unit :=
  let* generated := in_world (MockData.generate_grid_data num_records) in
  do set_data (DRecords generated) ;;
  let* d := read (λ st, data (self st)) in
  let* n := lift_result (len_data d) in
  say ("✓ Generated " +:+ pretty n +:+ " mock records").

Definition load_data (num_records : Z) : M ToolState bool :=
  do say rule ;;
  do say "LOADING DATA" ;;
  do say rule ;;
  let* mock := read (λ st, use_mock_data (self st)) in
  do (if mock then
        do say "Using mock data generator..." ;;
        use_mock_generator num_records
      else
        do say "Attempting to fetch data from omni-grid API..." ;;
        let* f := read (λ st, fetcher (self st)) in
        let* healthy := in_world (Fetcher.health_check f) in
        if negb healthy then
          do say "✗ API not accessible, falling back to mock data" ;;
          use_mock_generator num_records
        else
          let* fetched := in_world (Fetcher.fetch_grid_data f) in
          do set_data (DJson fetched) ;;
          let* d := read (λ st, data (self st)) in
          if truthy_data d then
            let* n := lift_result (len_data d) in
            say ("✓ Fetched " +:+ pretty n +:+ " records from API")
          else
            do say "✗ Failed to fetch data, using mock data" ;;
            use_mock_generator num_records) ;;
  let* d := read (λ st, data (self st)) in
  if truthy_data d then
    let* a := lift_result (new_analytics d) in
    do set_analytics a ;;
    mret' true
  else mret' false.

End Tool.
End Orchestrator.

(** ** mock_data.py: the metrics and the time series of the generator

    [random.gauss] is a further draw from the state of the [random]
    module; what it returns is left open.  Decimal literals stand for the
    decimals they denote. *)
Module MockSeries.
Section Generator.
Context `{PyRandom}.

(** [random.gauss(mu, sigma)] *)
Variable rng_gauss : Qc → Qc → rng_state → Qc * rng_state.

Definition decimal (n : Z) (d : positive) : Qc := Q2Qc (Qmake n d).

(** [MockDataGenerator.generate_metrics] *)
Definition generate_metrics : M World record :=
  let* total_records := random_randint 1000 10000 in
  let* active_users := random_randint 50 500 in
  let* avg_response_time := random_uniform (decimal 1 10) (MockData.qz 2) in
  let* success_rate := random_uniform (decimal 85 100) (decimal 99 100) in
  let* uptime := random_uniform (decimal 95 100) (decimal 999 1000) in
  let* now := datetime_now in
  mret' (<["total_records" := VNum (MockData.qz total_records)]>
        (<["active_users" := VNum (MockData.qz active_users)]>
        (<["avg_response_time" := VNum (py_round avg_response_time 3)]>
        (<["success_rate" := VNum (py_round success_rate 4)]>
        (<["uptime" := VNum (py_round uptime 5)]>
        (<["last_updated" := VStr (Datetime.isoformat now)]> ∅)))))).







End Generator.
End MockSeries.

(** ** A sample world

    A small congruential generator that implements the interface, a
    network that answers nothing, and the engine pandas is taken to build
    on an odd payload: they serve to evaluate the model on concrete
    inputs. *)
Module Sample.

Definition lcg_next (s : Z) : Z := (1103515245 * s + 12345) mod 2 ^ 31.

Definition lcg_randbelow (n s : Z) : Z * Z := (s mod n, lcg_next s).

Lemma lcg_randbelow_range (n s : Z) : 0 < n → 0 ≤ (lcg_randbelow n s).1 < n.
Proof. intros Hn. simpl. by apply Z.mod_pos_bound. Qed.

Global Instance lcg : PyRandom := {|
  rng_state := Z;
  rng_seed := λ a, Z.abs a;
  rng_random := λ s, (Q2Qc (Qmake (s mod 1000) 1000), lcg_next s);
  rng_randbelow := lcg_randbelow;
  rng_randbelow_range := lcg_randbelow_range
|}.

Definition offline : nat → Http.request → Http.outcome :=
  λ _ _, Http.RequestException "connection refused".

(** 2026-11-03T11:18:05 *)
Definition instant : Datetime.datetime :=
  {| Datetime.toordinal := 739923; Datetime.hour := 11; Datetime.minute := 18;
     Datetime.second := 5; Datetime.microsecond := 0 |}.


Definition world_at (now : Datetime.datetime) : World :=
  {| py_random := 7; np_random_seed := None; clock := now; stdout := [];
     network := offline; requests_made := 0 |}.

Definition no_engine : Http.json → result Analytics.DataAnalytics :=
  λ _, Raise ValueError.


(** A tool that is to fetch from the API, in a world without network. *)
Definition offline_tool : Orchestrator.ToolState :=
  {| Orchestrator.self :=
       {| Orchestrator.use_mock_data := false;
          Orchestrator.fetcher := Fetcher.init;
          Orchestrator.data := Orchestrator.DNone;
          Orchestrator.analytics := None |};
     Orchestrator.world := world_at instant |}.

Definition num (z : Z) : value := VNum (Qc_of_Z z).

(** [[{'a': 1}, {'b': 2}]]: two rows with different keys. *)
Definition row_a : record := {[ "a" := num 1 ]}.
Definition row_b : record := {[ "b" := num 2 ]}.
Definition ragged : list record := [row_a; row_b].

(** Three rows with a string column and a numeric column. *)
Definition labelled : list record :=
  [ {[ "category" := VStr "A"; "value" := num 10 ]};
    {[ "category" := VStr "B"; "value" := num 30 ]};
    {[ "category" := VStr "A"; "value" := num 20 ]} ].

End Sample.

(** * Vocabulary of the claims

    The notions the properties below are stated with. *)
Module Spec.
Import Pandas Analytics.

(** The keys of a table: the union of the keys of its rows. *)
Definition table_columns (data : list record) : gset string := ⋃ (dom <$> data).

(** All rows of a table have the same keys. *)
Definition uniform (data : list record) : Prop :=
  ∀ r1 r2, r1 ∈ data → r2 ∈ data → dom r1 = dom r2.

(** The rows as the frame holds them: each input row with the missing
    marker for the columns it lacks. *)
Definition completed (data : list record) : list record :=
  reindex (⋃ (dom <$> data)) <$> data.

(** The claim's reading of one condition: a condition on a column the
    table lacks holds of every row; otherwise the row's cell equals the
    value, or is a member of it when the value is a list. *)
Definition satisfies (cols : gset string) (r : record) (c : string * cond) : bool :=
  if decide (c.1 ∈ cols) then
    match c.2 with
    | CScalar v => py_eq (cell r c.1) v
    | CList vs => isin (cell r c.1) vs
    end
  else true.

Definition satisfies_all (cols : gset string) (conditions : list (string * cond))
    (r : record) : bool :=
  forallb (satisfies cols r) conditions.




(** A column is numeric when pandas infers a numeric dtype for it: it is
    a key of some row, every row holds a number or nothing under it, and
    some row holds a number. *)
Definition numeric_column (data : list record) (col : string) : Prop :=
  col ∈ table_columns data
  ∧ infer_dtype ((λ r, cell r col) <$> data) = Number.



(** The reductions of [aggregate_by_category] its docstring names. *)
Definition named_reduction (agg_func : string) : Prop :=
  agg_func = "sum" ∨ agg_func = "mean" ∨ agg_func = "count".


(** The query operations of the engine, with their arguments. *)
Inductive query : Type :=
  | QSummaryStatistics
  | QCategoricalDistribution (column : string)
  | QCorrelationMatrix
  | QAggregateByCategory (category_col value_col agg_func : string)
  | QTopN (column : string) (n : Z) (ascending : bool)
  | QFilterData (conditions : list (string * cond))
  | QPercentiles (column : string) (percentiles : option (list Z))
  | QDataQualityReport.

(** The engine after a query (the result of the query is dropped). *)
Definition state_after (s : DataAnalytics) (q : query) : DataAnalytics :=
  match q with
  | QSummaryStatistics => (get_summary_statistics s).2
  | QCategoricalDistribution column => (get_categorical_distribution column s).2
  | QCorrelationMatrix => (get_correlation_matrix s).2
  | QAggregateByCategory category_col value_col agg_func =>
      (aggregate_by_category category_col value_col agg_func s).2
  | QTopN column n ascending => (get_top_n column n ascending s).2
  | QFilterData conditions => (filter_data conditions s).2
  | QPercentiles column percentiles => (get_percentiles column percentiles s).2
  | QDataQualityReport => (get_data_quality_report s).2
  end.

(** The request [fetch_data] sends. *)
Definition fetch_request (self : Fetcher.OmniGridFetcher) (endpoint : string)
    (params : option (list (string * string))) (timeout : Z) : Http.request :=
  {| Http.req_url := Fetcher.rstrip_slash (Fetcher.base_url self +:+ "/" +:+ endpoint);
     Http.req_params := params; Http.req_timeout := timeout |}.



(** Total correctness of a method: from a state satisfying [P] it returns
    normally, with a value and a state satisfying [Q]. *)
Definition hoare {S A} (P : S → Prop) (m : M S A) (Q : A → S → Prop) : Prop :=
  ∀ s, P s → ∃ a s', m s = (Ok a, s') ∧ Q a s'.

Section WorldSpec.
Context `{PyRandom}.
Import Orchestrator.




(** The base date of a run of [generate_grid_data]: a year before the
    clock reading. *)
Definition base_date (w : World) : Datetime.datetime :=
  Datetime.add_days (clock w) (-365).


(** [w] differs from [w0] at most in the state of the random generator. *)
Definition same_io (w0 w : World) : Prop :=
  np_random_seed w = np_random_seed w0 ∧ clock w = clock w0
  ∧ stdout w = stdout w0 ∧ network w = network w0
  ∧ requests_made w = requests_made w0.

(** The health check of the tool's fetcher answers [False] in the current
    world. *)
Definition health_check_fails (st : ToolState) : Prop :=
  (Fetcher.health_check (fetcher (self st)) (world st)).1 = Ok false.

(** [records] is what the generator returns for [num_records] rows from
    the generator state and the clock of [w]. *)
Definition generated_from (w : World) (num_records : Z) (records : list record)
  : Prop :=
  ∃ w1, py_random w1 = py_random w ∧ clock w1 = clock w
        ∧ (MockData.generate_grid_data num_records w1).1 = Ok records.

(** The claim about the fallback at one call of [load_data]: it returns
    [True], [self.data] holds the requested number of records, they come
    from the generator, and the engine is built from them. *)
Definition fallback_as_claimed
    (engine_of_json : Http.json → result Analytics.DataAnalytics)
    (st : ToolState) (num_records : Z) : Prop :=
  ∃ records st',
    load_data engine_of_json num_records st = (Ok true, st')
    ∧ generated_from (world st) num_records records
    ∧ data (self st') = DRecords records
    ∧ Z.of_nat (length records) = num_records
    ∧ analytics (self st') = Some (Analytics.init records).

End WorldSpec.

End Spec.

(** * Vocabulary of the further properties *)
Module Further.
Import Pandas Analytics Spec.

(** The cells of a column, row by row; a row without the key holds the
    missing marker. *)
Definition column_cells (data : list record) (col : string) : list value :=
  (λ r, cell r col) <$> data.

(** How often [v] occurs among the cells. *)
Definition occurrences (v : value) (cells : list value) : nat :=
  length (List.filter (λ x, bool_decide (x = v)) cells).

(** The sum of the counts of a distribution. *)
Definition total (dist : gmap value nat) : nat :=
  map_fold (λ _ n acc, n + acc)%nat 0%nat dist.





(** The keys of a generated grid row, and those that hold numbers. *)
Definition grid_columns : list string :=
  ["id"; "category"; "region"; "status"; "value"; "quantity"; "score";
   "timestamp"; "priority"; "efficiency"; "cost"; "revenue"].

Definition numeric_grid_columns : list string :=
  ["id"; "value"; "quantity"; "score"; "efficiency"; "cost"; "revenue"].

Definition text_in (r : record) (key : string) (choices : list string) : Prop :=
  ∃ s, s ∈ choices ∧ r !! key = Some (VStr s).

Definition number_at (r : record) (key : string) : Prop :=
  ∃ x, r !! key = Some (VNum x).

(** The shape of the row of index [i] that [generate_grid_data] builds
    from the base date. *)
Definition grid_row (base_date : Datetime.datetime) (i : Z) (r : record) : Prop :=
  dom r = list_to_set grid_columns
  ∧ r !! "id" = Some (VNum (Qc_of_Z (i + 1)))
  ∧ text_in r "category" MockData.categories
  ∧ text_in r "region" MockData.regions
  ∧ text_in r "status" MockData.statuses
  ∧ text_in r "priority" MockData.priorities
  ∧ (∃ q, 1 ≤ q ≤ 100 ∧ r !! "quantity" = Some (VNum (Qc_of_Z q)))
  ∧ (∃ k, 0 ≤ k ≤ 365
          ∧ r !! "timestamp"
            = Some (VStr (Datetime.isoformat (Datetime.add_days base_date k))))
  ∧ ∀ c, c ∈ numeric_grid_columns → number_at r c.

(** An integer between [lo] and [hi] under [key]. *)
Definition integer_in (r : record) (key : string) (lo hi : Z) : Prop :=
  ∃ n, lo ≤ n ≤ hi ∧ r !! key = Some (VNum (Qc_of_Z n)).


(** A table of generated rows, indexed from zero. *)
Definition grid_table (base_date : Datetime.datetime) (rows : list record) : Prop :=
  ∀ j r, rows !! j = Some r → grid_row base_date (Z.of_nat j) r.

(** The characters of a string, and whether it ends in a slash. *)
Definition ends_in_slash (s : string) : Prop :=
  last (list_ascii_of_string s) = Some "/"%char.

(** A network that gives the listed answers in turn and then refuses. *)
Definition answering (answers : list Http.outcome)
  : nat → Http.request → Http.outcome :=
  λ n _, default (Http.RequestException "connection refused") (answers !! n).

(** The request of a fetch did not go through, its status is an error,
    or its body is not JSON. *)
Definition request_failed (answer : Http.outcome) : Prop :=
  match answer with
  | Http.Response status_code (Http.Decoded _) => 400 ≤ status_code < 600
  | _ => True
  end.

(** The request went through with a good status and the body [j]. *)
Definition answered (answer : Http.outcome) (j : Http.json) : Prop :=
  ∃ status_code, answer = Http.Response status_code (Http.Decoded j)
                 ∧ ¬ 400 ≤ status_code < 600.

Section ToolVocabulary.
Context `{PyRandom}.
Import Orchestrator.

(** The health check of the tool's fetcher answers [True] in the current
    world. *)
Definition healthy (st : ToolState) : Prop :=
  (Fetcher.health_check (fetcher (self st)) (world st)).1 = Ok true.

(** The answer of the network to the request for the grid, which is the
    one after the health check. *)
Definition grid_answer (st : ToolState) : Http.outcome :=
  network (world st) (S (requests_made (world st)))
          (fetch_request (fetcher (self st)) "grid" None 30).


(** The lines [load_data] starts with. *)
Definition loading_banner : list string :=
  [Orchestrator.rule; "LOADING DATA"; Orchestrator.rule].

End ToolVocabulary.

(** A tool that is to fetch from the API, in a world whose network gives
    the listed answers. *)
Definition online_tool (answers : list Http.outcome) : Orchestrator.ToolState :=
  {| Orchestrator.self :=
       {| Orchestrator.use_mock_data := false;
          Orchestrator.fetcher := Fetcher.init;
          Orchestrator.data := Orchestrator.DNone;
          Orchestrator.analytics := None |};
     Orchestrator.world :=
       {| py_random := (7 : @rng_state Sample.lcg); np_random_seed := None;
          clock := Sample.instant; stdout := [];
          network := answering answers; requests_made := 0 |} |}.

(** A tool in mock mode, in the sample world. *)
Definition mock_tool : Orchestrator.ToolState :=
  {| Orchestrator.self :=
       {| Orchestrator.use_mock_data := true;
          Orchestrator.fetcher := Fetcher.init;
          Orchestrator.data := Orchestrator.DNone;
          Orchestrator.analytics := None |};
     Orchestrator.world := Sample.world_at Sample.instant |}.

(** The answer [200 OK] with a JSON body. *)
Definition ok_with (j : Http.json) : Http.outcome :=
  Http.Response 200 (Http.Decoded j).

End Further.

(** * Properties *)
Import Spec.

(** ** Facts about frames *)
Section FrameFacts.
Import Pandas.

Lemma reindex_lookup (cols : gset string) (r : record) (c : string) :
  reindex cols r !! c = if decide (c ∈ cols) then Some (cell r c) else None.
Proof.
  unfold reindex. case_decide as Hc.
  - apply lookup_set_to_map; [naive_solver|]. exists c. done.
  - apply eq_None_not_Some. intros [v Hv].
    apply lookup_set_to_map in Hv; [|naive_solver].
    destruct Hv as (c' & Hc' & Heq). simplify_eq. done.
Qed.


Lemma reindex_id (cols : gset string) (r : record) :
  dom r = cols → reindex cols r = r.
Proof.
  intros Hd. apply map_eq. intros c. rewrite reindex_lookup. unfold cell.
  case_decide as Hc.
  - rewrite <- Hd in Hc. apply elem_of_dom in Hc as [v ->]. done.
  - rewrite <- Hd in Hc. apply not_elem_of_dom in Hc. by rewrite Hc.
Qed.

Lemma columns_of_records (data : list record) :
  columns (DataFrame_of_records data) = ⋃ (dom <$> data).
Proof.
  unfold columns, DataFrame_of_records. simpl.
  apply set_eq. intros c. rewrite elem_of_dom. split.
  - intros [v Hv]. apply lookup_set_to_map in Hv; [|naive_solver].
    destruct Hv as (c' & Hc' & Heq). by simplify_eq.
  - intros Hc. eexists. apply lookup_set_to_map; [naive_solver|].
    exists c. done.
Qed.

Lemma dtype_of_records (data : list record) (c : string) :
  c ∈ ⋃ (dom <$> data) →
  dtypes (DataFrame_of_records data) !! c
  = Some (infer_dtype ((λ r, cell r c) <$> data)).
Proof.
  intros Hc. unfold DataFrame_of_records. simpl.
  apply lookup_set_to_map; [naive_solver|]. exists c. done.
Qed.

Lemma rows_of_records (data : list record) :
  rows (DataFrame_of_records data) = reindex (⋃ (dom <$> data)) <$> data.
Proof. done. Qed.

Lemma union_dom_uniform (data : list record) (r : record) :
  uniform data → r ∈ data → ⋃ (dom <$> data) = dom r.
Proof.
  intros Hu Hr. apply set_eq. intros c. rewrite elem_of_union_list. split.
  - intros (X & HX & Hc). apply list_elem_of_fmap in HX as (r' & -> & Hr').
    by rewrite (Hu r r' Hr Hr').
  - intros Hc. exists (dom r). split; [|done].
    apply list_elem_of_fmap. by exists r.
Qed.

Lemma rows_of_uniform (data : list record) :
  uniform data → rows (DataFrame_of_records data) = data.
Proof.
  intros Hu. rewrite rows_of_records.
  transitivity (id <$> data); [|apply list_fmap_id].
  apply list_fmap_ext. intros i r Hr. simpl.
  apply reindex_id. symmetry. apply union_dom_uniform; [done|].
  by eapply list_elem_of_lookup_2.
Qed.

Lemma filter_filter_and {A} (f g : A → bool) (l : list A) :
  List.filter g (List.filter f l) = List.filter (λ x, f x && g x) l.
Proof.
  induction l as [|x l IH]; [done|]. simpl.
  destruct (f x); simpl; [destruct (g x)|]; by rewrite ?IH.
Qed.


End FrameFacts.

(** ** filter_data *)
Section FilterData.
Import Pandas Analytics.

Lemma filter_step_spec (d : DataFrame) (c : string * cond) :
  filter_step d c = select_rows d (λ r, satisfies (columns d) r c).
Proof.
  destruct c as [col v]. unfold filter_step, satisfies. simpl.
  case_decide.
  - by destruct v.
  - unfold select_rows. rewrite filter_true. by destruct d.
Qed.

Lemma foldl_filter_step (conditions : list (string * cond)) (d : DataFrame) :
  foldl filter_step d conditions
  = select_rows d (satisfies_all (columns d) conditions).
Proof.
  revert d. induction conditions as [|c cs IH]; intros d.
  - simpl. unfold select_rows, satisfies_all. simpl.
    rewrite filter_true. by destruct d.
  - simpl. rewrite IH, filter_step_spec. unfold select_rows, columns. simpl.
    f_equal. apply filter_filter_and.
Qed.

(** What [filter_data] computes, on any engine state. *)
Lemma filter_data_run (conditions : list (string * cond)) (s : DataAnalytics) :
  filter_data conditions s
  = (Ok (List.filter (satisfies_all (columns (df s)) conditions) (rows (df s))), s).
Proof.
  unfold filter_data, mbind', read, mret', copy, to_dict_records.
  by rewrite foldl_filter_step.
Qed.

Lemma filter_data_call (conditions : list (string * cond)) (data : list record) :
  call data (filter_data conditions)
  = Ok (List.filter (satisfies_all (⋃ (dom <$> data)) conditions)
                    (reindex (⋃ (dom <$> data)) <$> data)).
Proof.
  unfold call. rewrite filter_data_run. simpl.
  by rewrite columns_of_records.
Qed.

Lemma union_dom_nonempty (cols : gset string) (l : list record) :
  l ≠ [] → Forall (λ r, dom r = cols) l → ⋃ (dom <$> l) = cols.
Proof.
  intros Hne Hall. destruct l as [|r l]; [done|].
  rewrite (union_dom_uniform (r :: l) r).
  - by apply Forall_inv in Hall.
  - intros r1 r2 H1 H2. rewrite Forall_forall in Hall.
    by rewrite (Hall r1 H1), (Hall r2 H2).
  - left.
Qed.






End FilterData.

(** ** Summary statistics *)
Section Summary.
Import Pandas Analytics.

Lemma dom_foldl_insert {A} (f : string → A) (l : list string) (m : gmap string A) :
  dom (foldl (λ acc c, <[c := f c]> acc) m l) = dom m ∪ list_to_set l.
Proof.
  revert m. induction l as [|c l IH]; intros m; simpl.
  - by rewrite (right_id_L ∅ (∪)).
  - by rewrite IH, dom_insert_L, (comm_L (∪) {[c]}), (assoc_L (∪)).
Qed.

Lemma elem_of_select_dtypes_number (d : DataFrame) (col : string) :
  col ∈ select_dtypes_number d ↔ dtypes d !! col = Some Number.
Proof.
  unfold select_dtypes_number. rewrite elem_of_dom. split.
  - intros [v Hv]. apply map_lookup_filter_Some in Hv as [Hv Heq].
    simpl in Heq. by subst.
  - intros Hc. exists Number. by apply map_lookup_filter_Some.
Qed.

Lemma numeric_column_dtype (data : list record) (col : string) :
  numeric_column data col
  ↔ dtypes (DataFrame_of_records data) !! col = Some Number.
Proof.
  unfold numeric_column, table_columns. split.
  - intros [Hc Hn]. by rewrite dtype_of_records, Hn.
  - intros Hd. assert (Hc : col ∈ ⋃ (dom <$> data)).
    { rewrite <- columns_of_records. apply elem_of_dom. by eexists. }
    split; [done|]. rewrite dtype_of_records in Hd by done. by simplify_eq.
Qed.


End Summary.

(** ** Absent columns *)
Section AbsentColumn.
Import Pandas Analytics.

(** Run a call on a fresh engine up to the first test of the method. *)
Ltac run_call m := unfold call, m, mbind', read; simpl.

Lemma absent_in_frame (d : list record) (col : string) :
  col ∉ table_columns d → col ∉ columns (df (init d)).
Proof. intros Hc. simpl. by rewrite columns_of_records. Qed.

Lemma get_categorical_distribution_absent (d : list record) (col : string) :
  col ∉ table_columns d →
  call d (get_categorical_distribution col) = Ok (∅ : gmap value nat).
Proof.
  intros Hf%absent_in_frame. run_call get_categorical_distribution.
  by rewrite decide_True.
Qed.

Lemma aggregate_by_category_absent (d : list record)
    (category_col value_col agg_func : string) :
  category_col ∉ table_columns d ∨ value_col ∉ table_columns d →
  call d (aggregate_by_category category_col value_col agg_func)
  = Ok (∅ : gmap value value).
Proof.
  intros Habs. run_call aggregate_by_category.
  rewrite decide_True; [done|].
  destruct Habs as [Hf%absent_in_frame|Hf%absent_in_frame]; [by left|by right].
Qed.

Lemma get_percentiles_absent (d : list record) (col : string)
    (percentiles : option (list Z)) :
  col ∉ table_columns d →
  call d (get_percentiles col percentiles)
  = Ok (∅ : gmap string Series.pyfloat).
Proof.
  intros Hf%absent_in_frame. run_call get_percentiles.
  by rewrite decide_True.
Qed.

Lemma get_top_n_absent (d : list record) (col : string) (n : Z) (ascending : bool) :
  col ∉ table_columns d → call d (get_top_n col n ascending) = Ok [].
Proof.
  intros Hf%absent_in_frame. run_call get_top_n.
  by rewrite decide_True.
Qed.

Lemma filter_data_absent (d : list record) (col : string) (v : cond) :
  col ∉ table_columns d → call d (filter_data [(col, v)]) = Ok (completed d).
Proof.
  intros Hc. rewrite filter_data_call. f_equal. unfold completed.
  erewrite filter_ext; [apply filter_true|]. intros r.
  unfold satisfies_all, satisfies. simpl. by rewrite decide_False.
Qed.

(** C6: on a column the table lacks, the distribution, the aggregation and
    the percentiles are the empty mapping, the top-N is the empty list, and
    a filter on that column alone is the default, unfiltered result. *)
Theorem absent_column_gives_empty (d : list record) (col : string) :
  col ∉ table_columns d →
  call d (get_categorical_distribution col) = Ok (∅ : gmap value nat)
  ∧ (∀ other agg_func,
       call d (aggregate_by_category col other agg_func)
       = Ok (∅ : gmap value value)
       ∧ call d (aggregate_by_category other col agg_func)
         = Ok (∅ : gmap value value))
  ∧ (∀ percentiles,
       call d (get_percentiles col percentiles)
       = Ok (∅ : gmap string Series.pyfloat))
  ∧ (∀ n ascending, call d (get_top_n col n ascending) = Ok [])
  ∧ (∀ v, call d (filter_data [(col, v)]) = call d (filter_data [])
          ∧ call d (filter_data [(col, v)]) = Ok (completed d)).
Proof.
  intros Hc. split; [|split; [|split; [|split]]].
  - by apply get_categorical_distribution_absent.
  - intros other agg_func.
    split; apply aggregate_by_category_absent; [by left|by right].
  - intros percentiles. by apply get_percentiles_absent.
  - intros n ascending. by apply get_top_n_absent.
  - intros v. rewrite filter_data_absent by done. split; [|done].
    rewrite filter_data_call. f_equal. symmetry. apply filter_true.
Qed.

(** The table [[{'a': 1}, {'b': 2}]] has no column ['z']. *)
Lemma absent_column_gives_empty_witness :
  call Sample.ragged (get_categorical_distribution "z")
  = Ok (∅ : gmap value nat)
  ∧ call Sample.ragged (get_top_n "z" 3 false) = Ok [].
Proof.
  assert (Habs : "z" ∉ table_columns Sample.ragged) by (by vm_compute).
  destruct (absent_column_gives_empty Sample.ragged "z" Habs)
    as (Hd & _ & _ & Ht & _).
  exact (conj Hd (Ht 3 false)).
Defined.

End AbsentColumn.

(** ** Queries do not change the engine *)
Section Frame_effect.
Import Pandas Analytics.

Lemma percentile_loop_state (d : DataFrame) (column : string) (ps : list Z)
    (acc : gmap string Series.pyfloat) (s : DataAnalytics) :
  (percentile_loop d column ps acc s).2 = s.
Proof.
  revert acc. induction ps as [|p ps IH]; intros acc; simpl; [done|].
  unfold mbind', lift_result.
  destruct (Series.quantile _ _ _); [apply IH|done].
Qed.

Lemma state_after_id (s : DataAnalytics) (q : query) : state_after s q = s.
Proof.
  destruct q; unfold state_after.
  - done.
  - unfold get_categorical_distribution, mbind', read. simpl. by case_decide.
  - unfold get_correlation_matrix, mbind', read. simpl.
    by destruct (Frame.empty_frame _ _).
  - unfold aggregate_by_category, mbind', read, lift_result. simpl.
    by case_decide.
  - unfold get_top_n, mbind', read, lift_result. simpl.
    case_decide; [done|].
    by destruct (if negb ascending then _ else _).
  - by rewrite filter_data_run.
  - unfold get_percentiles, mbind', read. simpl.
    case_decide; [done|]. apply percentile_loop_state.
  - done.
Qed.

(** C9: after any sequence of queries on an engine built from [d], the
    stored frame and the stored record list are those of the
    construction. *)
Theorem queries_leave_state (d : list record) (qs : list query) :
  df (foldl state_after (init d) qs) = DataFrame_of_records d
  ∧ original_data (foldl state_after (init d) qs) = d.
Proof.
  assert (Hs : foldl state_after (init d) qs = init d).
  { induction qs as [|q qs IH] using rev_ind; [done|].
    by rewrite foldl_snoc, IH, state_after_id. }
  by rewrite Hs.
Qed.

End Frame_effect.

(** ** Top-N *)
Section TopN.
Import Pandas Analytics Frame.


Lemma length_insert_by {A} (R : relation A) `{!RelDecision R} (x : A) (l : list A) :
  length (insert_by R x l) = S (length l).
Proof.
  induction l as [|y l IH]; simpl; [done|].
  case_decide; simpl; by rewrite ?IH.
Qed.



Lemma length_stable_sort {A} (R : relation A) `{!RelDecision R} (l : list A) :
  length (stable_sort R l) = length l.
Proof.
  induction l as [|x l IH]; simpl; [done|]. by rewrite length_insert_by, IH.
Qed.

Global Instance cell_before_total ascending : Total (cell_before ascending).
Proof.
  intros [x| |] [y| |]; simpl; try (left; lia); try (right; lia).
  destruct ascending; [apply (total Qcle x y)|].
  destruct (total Qcle x y); auto.
Qed.

Global Instance cell_before_trans ascending : Transitive (cell_before ascending).
Proof.
  intros [x| |] [y| |] [z| |]; simpl; try lia; try done.
  destruct ascending; intros Hxy Hyz.
  - by transitivity y.
  - by transitivity y.
Qed.

Global Instance row_before_total ascending col : Total (row_before ascending col).
Proof. intros r1 r2. apply (total (cell_before ascending)). Qed.

Global Instance row_before_trans ascending col :
  Transitive (row_before ascending col).
Proof.
  intros r1 r2 r3. unfold row_before.
  apply (transitivity (R := cell_before ascending)).
Qed.

(** What [get_top_n] does on a column of the table, by its dtype. *)
Lemma get_top_n_call (d : list record) (column : string) (n : Z) (ascending : bool) :
  column ∈ table_columns d →
  call d (get_top_n column n ascending)
  = match column_dtype (DataFrame_of_records d) column with
    | Number =>
        Ok (take (Z.to_nat n)
                 (stable_sort (row_before ascending column) (completed d)))
    | Object => Raise TypeError
    end.
Proof.
  intros Hc. unfold call, get_top_n, mbind', read, lift_result. simpl.
  rewrite decide_False by (rewrite columns_of_records; by intros []).
  unfold nlargest, nsmallest, select_n.
  destruct ascending; simpl;
    by destruct (column_dtype (DataFrame_of_records d) column).
Qed.

Lemma column_dtype_numeric (d : list record) (column : string) :
  numeric_column d column
  ↔ column ∈ table_columns d
    ∧ column_dtype (DataFrame_of_records d) column = Number.
Proof.
  rewrite numeric_column_dtype. unfold column_dtype, table_columns. split.
  - intros Hd. rewrite Hd. split; [|done].
    rewrite <- columns_of_records. apply elem_of_dom. by eexists.
  - intros [Hc Hd].
    rewrite dtype_of_records in * by done. simpl in Hd. by rewrite Hd.
Qed.




End TopN.

(** ** Which operations can raise *)
Section Totality.
Import Pandas Analytics Frame.

Lemma cell_reindex (cols : gset string) (r : record) (c : string) :
  c ∈ cols → cell (reindex cols r) c = cell r c.
Proof.
  intros Hc. unfold cell at 1. by rewrite reindex_lookup, decide_True.
Qed.

(** The cells of a numeric column are numbers or missing. *)
Lemma numeric_column_cells (d : list record) (column : string) (r : record) :
  numeric_column d column → r ∈ completed d →
  is_num (cell r column) || is_null (cell r column) = true.
Proof.
  intros [Hc Hn] Hr. unfold completed in Hr.
  apply list_elem_of_fmap in Hr as (r0 & -> & Hr0).
  rewrite cell_reindex by done.
  unfold infer_dtype in Hn.
  destruct (forallb _ _) eqn:Hall; [|done].
  rewrite forallb_forall in Hall.
  apply Hall, list_elem_of_In, list_elem_of_fmap. by exists r0.
Qed.







End Totality.

(** ** fetch_data *)
Section FetchData.
Context `{PyRandom}.
Import Http Fetcher.


End FetchData.

(** ** The generator returns normally *)
Section GeneratorRuns.
Context `{PyRandom}.
Import MockData.

Lemma hoare_ret {S A} (P : S → Prop) (Q : A → S → Prop) (a : A) :
  (∀ s, P s → Q a s) → hoare P (mret' a) Q.
Proof. intros HQ s Hs. exists a, s. split; [done|]. by apply HQ. Qed.

Lemma hoare_bind {S A B} (P : S → Prop) (R : A → S → Prop) (Q : B → S → Prop)
    (m : M S A) (k : A → M S B) :
  hoare P m R → (∀ a, hoare (R a) (k a) Q) → hoare P (mbind' m k) Q.
Proof.
  intros Hm Hk s Hs. destruct (Hm s Hs) as (a & s' & Hrun & HR).
  destruct (Hk a s' HR) as (b & s'' & Hrun' & HQ).
  exists b, s''. split; [|done]. unfold mbind'. by rewrite Hrun.
Qed.

Lemma hoare_draw {A} (w0 : World) (f : rng_state → A * rng_state) :
  hoare (same_io w0) (draw f) (λ _, same_io w0).
Proof.
  intros w Hw. unfold draw. destruct (f (py_random w)) as [a s'] eqn:Hf.
  exists a, (set_py_random s' w). split; [done|]. exact Hw.
Qed.

Lemma hoare_random_choice {A} (w0 : World) (seq : list A) :
  seq ≠ [] → hoare (same_io w0) (random_choice seq) (λ _, same_io w0).
Proof.
  intros Hne w Hw. unfold random_choice.
  destruct seq as [|x seq]; [done|].
  set (n := Z.of_nat (length (x :: seq))).
  unfold mbind', draw.
  pose proof (rng_randbelow_range n (py_random w)) as Hrange.
  destruct (rng_randbelow n (py_random w)) as [i s'] eqn:Hi. simpl in Hrange.
  assert (Hn : 0 < n) by (unfold n; simpl; lia).
  specialize (Hrange Hn).
  destruct (lookup_lt_is_Some_2 (x :: seq) (Z.to_nat i)) as [y Hy].
  { unfold n in Hrange. lia. }
  rewrite Hy. exists y, (set_py_random s' w). split; [done|]. exact Hw.
Qed.

Lemma hoare_random_randint (w0 : World) (a b : Z) :
  a ≤ b → hoare (same_io w0) (random_randint a b) (λ _, same_io w0).
Proof.
  intros Hab. unfold random_randint. rewrite decide_False by lia.
  eapply hoare_bind; [apply hoare_draw|]. intros r. by apply hoare_ret.
Qed.

Lemma hoare_random_uniform (w0 : World) (a b : Qc) :
  hoare (same_io w0) (random_uniform a b) (λ _, same_io w0).
Proof.
  unfold random_uniform.
  eapply hoare_bind; [apply hoare_draw|]. intros r. by apply hoare_ret.
Qed.

Lemma hoare_make_row (w0 : World) (base_date : Datetime.datetime) (i : Z) :
  hoare (same_io w0) (make_row base_date i) (λ _, same_io w0).
Proof.
  unfold make_row.
  repeat (eapply hoare_bind;
          [first [ by apply hoare_random_choice
                 | by apply hoare_random_randint
                 | apply hoare_random_uniform ]
          | intros ? ]).
  by apply hoare_ret.
Qed.

Lemma hoare_grid_loop (w0 : World) (base_date : Datetime.datetime)
    (todo : nat) (i : Z) (data : list record) :
  hoare (same_io w0) (grid_loop base_date todo i data)
        (λ rows w, length rows = (length data + todo)%nat ∧ same_io w0 w).
Proof.
  revert i data. induction todo as [|todo IH]; intros i data; simpl.
  - apply hoare_ret. intros w Hw. split; [lia|done].
  - eapply hoare_bind; [apply hoare_make_row|]. intros row.
    intros w Hw. destruct (IH (i + 1) (data ++ [row]) w Hw)
      as (rows & w' & Hrun & Hlen & Hw').
    exists rows, w'. split; [done|]. split; [|done].
    rewrite Hlen, length_app. simpl. lia.
Qed.

(** [generate_grid_data] returns [num_rows] records (none for a negative
    count) and touches nothing but the random generator. *)
Lemma generate_grid_data_runs (num_rows : Z) (w : World) :
  ∃ rows w', generate_grid_data num_rows w = (Ok rows, w')
             ∧ length rows = Z.to_nat num_rows ∧ same_io w w'.
Proof.
  unfold generate_grid_data, mbind', datetime_now, read.
  assert (Hw : same_io w w) by (by repeat split).
  destruct (hoare_grid_loop w (Datetime.add_days (clock w) (-365))
              (Z.to_nat num_rows) 0 [] w Hw) as (rows & w' & Hrun & Hlen & Hw').
  exists rows, w'. by rewrite Hrun.
Qed.

End GeneratorRuns.

(** ** load_data falls back to the generator *)
Section LoadData.
Context `{PyRandom}.
Variable engine_of_json : Http.json → result Analytics.DataAnalytics.
Import Orchestrator Fetcher.

(** The answer of the health check depends on the network alone: printing
    before it does not change it. *)
Lemma health_check_false_frame (f : OmniGridFetcher) (w w1 : World) :
  (health_check f w).1 = Ok false →
  network w1 = network w → requests_made w1 = requests_made w →
  ∃ w1', health_check f w1 = (Ok false, w1')
         ∧ py_random w1' = py_random w1 ∧ clock w1' = clock w1.
Proof.
  unfold health_check, mbind', session_get, mret'. simpl.
  intros Hhc -> ->.
  destruct (network w (requests_made w) _) as [msg|status_code content];
    simpl in *; [by eexists|].
  injection Hhc as ->. by eexists.
Qed.

(** C5, amended: when the health check fails and at least one record is
    requested, [load_data] of a tool that is not in mock mode generates that
    many records, builds the engine from them and returns [True]. *)
Theorem load_data_falls_back (st : ToolState) (num_records : Z) :
  use_mock_data (self st) = false →
  health_check_fails st →
  1 ≤ num_records →
  fallback_as_claimed engine_of_json st num_records.
Proof.
  intros Hmock Hhc Hn. destruct st as [[mock f d a] w]. simpl in Hmock. subst mock.
  unfold health_check_fails in Hhc. simpl in Hhc.
  unfold fallback_as_claimed, load_data, use_mock_generator.
  unfold mbind', say, in_world, print, modify, read, mret'. simpl.
  match goal with |- context [health_check f ?w1] =>
    destruct (health_check_false_frame f w w1 Hhc eq_refl eq_refl)
      as (w1' & -> & Hrng & Hclock)
  end.
  simpl in Hrng, Hclock. simpl.
  match goal with |- context [MockData.generate_grid_data num_records ?w2] =>
    destruct (generate_grid_data_runs num_records w2)
      as (rows & w3 & Hgen & Hlen & _);
    assert (Hfrom : generated_from w num_records rows)
      by (exists w2; by rewrite Hgen)
  end.
  rewrite Hgen. simpl.
  destruct rows as [|row rows]; [simpl in Hlen; lia|].
  simpl. exists (row :: rows). eexists. split; [reflexivity|]. simpl.
  split; [done|]. split; [done|]. split; [|done].
  rewrite length_cons in Hlen. lia.
Qed.

End LoadData.

(** An offline network fails the health check; one record is requested. *)
Lemma load_data_falls_back_witness :
  fallback_as_claimed Sample.no_engine Sample.offline_tool 1.
Proof.
  apply (load_data_falls_back Sample.no_engine Sample.offline_tool 1).
  - reflexivity.
  - reflexivity.
  - lia.
Defined.

(** C5 as stated fails when no record is requested: the empty list the
    generator returns counts as a failed load. *)
Lemma load_data_of_zero_records :
  ¬ (Orchestrator.use_mock_data (Orchestrator.self Sample.offline_tool) = false →
     health_check_fails Sample.offline_tool →
     fallback_as_claimed Sample.no_engine Sample.offline_tool 0).
Proof.
  intros Hclaim.
  destruct (Hclaim eq_refl eq_refl) as (records & st' & Hrun & _).
  apply (f_equal fst) in Hrun. vm_compute in Hrun. discriminate Hrun.
Qed.

(** ** Two runs of the generator *)
Section Determinism.
Context `{PyRandom}.
Import MockData.















End Determinism.



(** * Further properties *)
Import Further.

(** ** The frame of a table *)
Section FrameOfTable.
Import Pandas Analytics.

Lemma cell_completed (d : list record) (r : record) (c : string) :
  r ∈ d → cell (reindex (table_columns d) r) c = cell r c.
Proof.
  intros Hr. destruct (decide (c ∈ table_columns d)) as [Hc|Hc].
  - by apply cell_reindex.
  - unfold cell at 1. rewrite reindex_lookup, decide_False by done. simpl.
    unfold cell. destruct (r !! c) as [v|] eqn:Hv; [|done].
    destruct Hc. apply elem_of_union_list. exists (dom r). split.
    + apply list_elem_of_fmap. by exists r.
    + apply elem_of_dom. by eexists.
Qed.

Lemma series_of_records (d : list record) (c : string) :
  series (DataFrame_of_records d) c = column_cells d c.
Proof.
  unfold series, column_cells. rewrite rows_of_records, <- list_fmap_compose.
  apply list_fmap_ext. intros i r Hr. simpl.
  apply cell_completed. by eapply list_elem_of_lookup_2.
Qed.

End FrameOfTable.

(** ** get_categorical_distribution *)
Section Distribution.
Import Pandas Analytics.

Lemma occurrences_cons (v x : value) (cells : list value) :
  occurrences v (x :: cells)
  = if decide (x = v) then S (occurrences v cells) else occurrences v cells.
Proof.
  unfold occurrences. simpl. case_decide.
  - by rewrite bool_decide_eq_true_2.
  - by rewrite bool_decide_eq_false_2.
Qed.

Lemma value_counts_lookup (cells : list value) (v : value) :
  Series.value_counts cells !! v
  = if decide (v = VNull ∨ occurrences v cells = 0%nat) then None
    else Some (occurrences v cells).
Proof.
  induction cells as [|x cells IH].
  - simpl. rewrite lookup_empty. by rewrite decide_True by (by right).
  - rewrite occurrences_cons.
    change (Series.value_counts (x :: cells))
      with (if is_null x then Series.value_counts cells
            else <[x := S (default 0%nat (Series.value_counts cells !! x))]>
                   (Series.value_counts cells)).
    destruct (decide (x = v)) as [->|Hne].
    + destruct v as [q|s|]; simpl.
      * rewrite lookup_insert_eq, IH.
        case_decide as Hc; simpl; [|done].
        by destruct Hc as [?| ->].
      * rewrite lookup_insert_eq, IH.
        case_decide as Hc; simpl; [|done].
        by destruct Hc as [?| ->].
      * rewrite IH. by rewrite !decide_True by (by left).
    + destruct (is_null x); [exact IH|].
      by rewrite lookup_insert_ne.
Qed.

Lemma total_value_counts (cells : list value) :
  total (Series.value_counts cells) = Series.count cells.
Proof.
  unfold total, Series.count.
  induction cells as [|x cells IH]; simpl; [by rewrite map_fold_empty|].
  destruct (is_null x) eqn:Hx; simpl; [exact IH|].
  set (m := Series.value_counts cells) in *.
  assert (Hcomm : ∀ z1 z2 y : nat, (z1 + (z2 + y) = z2 + (z1 + y))%nat)
    by (intros; lia).
  destruct (m !! x) as [c|] eqn:Hm; simpl.
  - rewrite <- insert_delete_eq.
    rewrite map_fold_insert_L; [|intros; apply Hcomm|apply lookup_delete_eq].
    rewrite <- IH.
    rewrite <- (insert_delete_id m x c) at 2 by done.
    rewrite (map_fold_insert_L _ _ x c);
      [|intros; apply Hcomm|apply lookup_delete_eq].
    lia.
  - rewrite map_fold_insert_L; [|intros; apply Hcomm|done]. by rewrite IH.
Qed.



(** X2: the counts of a distribution add up to the number of rows that
    hold a value in the column (the [count] of the column). *)
Theorem distribution_total_is_count (d : list record) (column : string) :
  column ∈ table_columns d →
  ∃ dist,
    call d (get_categorical_distribution column) = Ok dist
    ∧ total dist = Series.count (column_cells d column).
Proof.
  intros Hc. eexists. split.
  - unfold call, get_categorical_distribution, mbind', read. simpl.
    rewrite decide_False; [reflexivity|].
    rewrite columns_of_records. by intros [].
  - by rewrite series_of_records, total_value_counts.
Qed.

(** The three rows of the sample table all have a category. *)
Lemma distribution_total_is_count_witness :
  ∃ dist,
    call Sample.labelled (get_categorical_distribution "category") = Ok dist
    ∧ total dist = 3%nat.
Proof.
  assert (Hc : "category" ∈ table_columns Sample.labelled) by (by vm_compute).
  destruct (distribution_total_is_count Sample.labelled "category" Hc)
    as (dist & Hcall & Htotal).
  exists dist. split; [exact Hcall|]. rewrite Htotal. reflexivity.
Defined.

End Distribution.

(** ** filter_data: composition *)
Section FilterCompose.
Import Pandas Analytics.




Lemma satisfies_all_perm (cols : gset string) (c c' : list (string * cond))
    (r : record) :
  c ≡ₚ c' → satisfies_all cols c r = satisfies_all cols c' r.
Proof.
  intros Hp. unfold satisfies_all.
  induction Hp as [|x l l' _ IH|x y l|l l' l'' _ IH1 _ IH2]; simpl.
  - done.
  - by rewrite IH.
  - by rewrite !andb_assoc, (andb_comm (satisfies cols r y)).
  - by rewrite IH1.
Qed.

(** X4: the order in which the conditions are listed does not matter. *)
Theorem filter_data_order_irrelevant (d : list record)
    (c c' : list (string * cond)) :
  c ≡ₚ c' → call d (filter_data c) = call d (filter_data c').
Proof.
  intros Hp. rewrite !filter_data_call. f_equal.
  apply filter_ext. intros r. by apply satisfies_all_perm.
Qed.

(** Category A with value 20, asked in either order. *)
Lemma filter_data_order_irrelevant_witness :
  call Sample.labelled
       (filter_data [("category", CScalar (VStr "A"));
                     ("value", CList [Sample.num 20; Sample.num 30])])
  = call Sample.labelled
         (filter_data [("value", CList [Sample.num 20; Sample.num 30]);
                       ("category", CScalar (VStr "A"))]).
Proof.
  apply (filter_data_order_irrelevant Sample.labelled).
  apply perm_swap.
Defined.

End FilterCompose.

(** ** get_top_n: which rows are returned *)
Section TopRanking.
Import Pandas Analytics Frame.

Lemma insert_by_perm {A} (R : relation A) `{!RelDecision R} (x : A) (l : list A) :
  insert_by R x l ≡ₚ x :: l.
Proof.
  induction l as [|y l IH]; simpl; [done|].
  case_decide; [done|]. rewrite IH. apply perm_swap.
Qed.

Lemma stable_sort_perm {A} (R : relation A) `{!RelDecision R} (l : list A) :
  stable_sort R l ≡ₚ l.
Proof.
  induction l as [|x l IH]; simpl; [done|]. by rewrite insert_by_perm, IH.
Qed.



End TopRanking.

(** ** The summary of a column *)
Section SummaryValues.
Import Pandas Analytics.



End SummaryValues.

(** ** Minimum, maximum and mean of a column *)
Section Extremes.
Import Pandas Analytics Frame.
















End Extremes.

(** ** The first of the top-N and the extremes of the summary *)
Section TopOne.
Import Pandas Analytics Frame.







End TopOne.

(** ** Percentiles *)
Section Interpolation.
Import Series.

















End Interpolation.

Section Percentiles.
Import Pandas Analytics.

Global Instance percentile_key_inj : Inj (=) (=) percentile_key.
Proof.
  intros p q H. unfold percentile_key in H. simpl in H.
  injection H as H. by apply (inj pretty).
Qed.











End Percentiles.

(** ** The correlation matrix *)
Section Correlation.
Import Pandas Analytics Frame.

Lemma numeric_column_selected (d : list record) (col : string) :
  numeric_column d col ↔ col ∈ select_dtypes_number (DataFrame_of_records d).
Proof. by rewrite numeric_column_dtype, elem_of_select_dtypes_number. Qed.






















End Correlation.

(** ** The data quality report *)
Section Quality.
Import Pandas Analytics Frame.

Lemma get_categorical_distribution_call (d : list record) (column : string) :
  column ∈ table_columns d →
  call d (get_categorical_distribution column)
  = Ok (Series.value_counts (column_cells d column)).
Proof.
  intros Hc. unfold call, get_categorical_distribution, mbind', read. simpl.
  rewrite decide_False by (rewrite columns_of_records; by intros []).
  by rewrite series_of_records.
Qed.

Lemma missing_and_present (cells : list value) :
  (length (List.filter is_null cells) + Series.count cells = length cells)%nat.
Proof.
  unfold Series.count. induction cells as [|v cells IH]; [done|]. simpl.
  destruct (is_null v); simpl; lia.
Qed.



Lemma duplicated_count_zero (seen rs : list record) :
  duplicated_count seen rs = 0%nat
  ↔ NoDup rs ∧ ∀ r, r ∈ rs → r ∉ seen.
Proof.
  revert seen. induction rs as [|r rs IH]; intros seen; simpl.
  { split; [|done]. intros _. split; [constructor|].
    intros r Hr. by apply elem_of_nil in Hr. }
  case_bool_decide as Hr.
  - split; [done|]. intros [_ Hout]. destruct (Hout r); [left|done].
  - simpl. rewrite IH, NoDup_cons. split.
    + intros [Hnd Hout]. split.
      * split; [|done]. intros Hin. apply (Hout r Hin). left.
      * intros x [->|Hx]%elem_of_cons; [done|].
        intros Hs. apply (Hout x Hx). by right.
    + intros [[Hnin Hnd] Hout]. split; [done|].
      intros x Hx [->|Hs]%elem_of_cons; [done|].
      apply (Hout x); [by right|done].
Qed.


End Quality.

(** ** Aggregation by category *)
Section Aggregate.
Import Pandas Analytics Frame.

Lemma groupby_agg_lookup (df : DataFrame) (category_col value_col agg_func : string)
    (g : value → value) :
  (∀ k, agg agg_func (column_dtype df value_col)
            (group_cells df category_col value_col k) = Ok (g k)) →
  ∃ m, groupby_agg df category_col value_col agg_func = Ok m
       ∧ ∀ k, m !! k
              = if decide (k ≠ VNull ∧ k ∈ series df category_col)
                then Some (g k) else None.
Proof.
  intros Hg. unfold groupby_agg.
  induction (series df category_col) as [|k0 ks IH].
  { exists ∅. split; [done|]. intros k. rewrite lookup_empty.
    rewrite decide_False; [done|]. intros [_ H]. by apply elem_of_nil in H. }
  destruct IH as (m & Hm & Hlook). simpl. rewrite Hm.
  destruct (is_null k0) eqn:Hk0.
  - exists m. split; [done|]. intros k. rewrite Hlook.
    destruct k0; try done.
    destruct (decide (k ≠ VNull ∧ k ∈ ks)) as [[Hn Hin]|Hno].
    + rewrite decide_True; [done|]. split; [done|by right].
    + rewrite decide_False; [done|]. intros [Hn Hin]. apply Hno.
      split; [done|]. apply elem_of_cons in Hin as [->|Hin]; done.
  - rewrite Hg. exists (<[k0 := g k0]> m). split; [done|]. intros k.
    destruct (decide (k = k0)) as [->|Hne].
    + rewrite lookup_insert_eq, decide_True; [done|].
      split; [by destruct k0|left].
    + rewrite lookup_insert_ne by done. rewrite Hlook.
      destruct (decide (k ≠ VNull ∧ k ∈ ks)) as [[Hn Hin]|Hno].
      * rewrite decide_True; [done|]. split; [done|by right].
      * rewrite decide_False; [done|]. intros [Hn Hin]. apply Hno.
        split; [done|]. apply elem_of_cons in Hin as [->|Hin]; done.
Qed.

Lemma aggregate_by_category_call (d : list record)
    (category_col value_col agg_func : string) :
  category_col ∈ table_columns d → value_col ∈ table_columns d →
  call d (aggregate_by_category category_col value_col agg_func)
  = groupby_agg (DataFrame_of_records d) category_col value_col agg_func.
Proof.
  intros Hc Hv. unfold call, aggregate_by_category, mbind', read. simpl.
  rewrite decide_False by (rewrite columns_of_records; by intros [?|?]).
  unfold lift_result. simpl. by destruct (groupby_agg _ _ _ _).
Qed.

Lemma value_counts_dom (cells : list value) (k : value) :
  k ∈ dom (Series.value_counts cells) ↔ k ≠ VNull ∧ k ∈ cells.
Proof.
  rewrite elem_of_dom, value_counts_lookup.
  assert (Hocc : occurrences k cells = 0%nat ↔ k ∉ cells).
  { induction cells as [|x cells IH].
    { split; [|done]. intros _ H. by apply elem_of_nil in H. }
    rewrite occurrences_cons, not_elem_of_cons.
    destruct (decide (x = k)) as [->|Hne]; [naive_solver lia|].
    rewrite IH. naive_solver. }
  destruct (decide _) as [[->|H0]|Hno].
  - split; [by intros []|by intros []].
  - split; [by intros []|]. intros [_ Hin]. by apply Hocc in H0.
  - split; [|by eexists]. intros _. split; [naive_solver|].
    destruct (decide (k ∈ cells)) as [|Hout]; [done|].
    apply Hocc in Hout. naive_solver.
Qed.

(** The cells of a group of a numeric column that are present are its
    numbers. *)
Lemma group_present_numbers (d : list record) (category_col value_col : string)
    (k : value) :
  numeric_column d value_col →
  let cells := group_cells (DataFrame_of_records d) category_col value_col k in
  forallb is_num (List.filter (λ v, negb (is_null v)) cells) = true
  ∧ Series.nums (List.filter (λ v, negb (is_null v)) cells) = Series.nums cells
  ∧ length (List.filter (λ v, negb (is_null v)) cells)
    = length (Series.nums cells).
Proof.
  intros Hn cells.
  assert (Hall : Forall (λ v, is_num v = true ∨ v = VNull) cells).
  { apply Forall_forall. intros v Hv. unfold cells, group_cells in Hv.
    apply list_elem_of_fmap in Hv as (r & -> & Hr).
    apply list_elem_of_In, filter_In in Hr as [Hr _].
    apply list_elem_of_In in Hr. rewrite rows_of_records in Hr.
    pose proof (numeric_column_cells d value_col r Hn Hr) as Hcell.
    destruct (cell r value_col); simpl in *; auto. }
  clearbody cells. induction Hall as [|v cells Hv _ IH]; [done|].
  destruct IH as (IH1 & IH2 & IH3).
  destruct Hv as [Hv| ->].
  - destruct v; try done. simpl. unfold Series.nums in *. csimpl.
    rewrite IH1, IH2. simpl. by rewrite IH3.
  - simpl. unfold Series.nums in *. by csimpl.
Qed.

(** What the three named reductions give for a group of a numeric
    column. *)
Lemma agg_numeric (d : list record) (category_col value_col : string)
    (k : value) :
  numeric_column d value_col →
  let cells := group_cells (DataFrame_of_records d) category_col value_col k in
  let dt := column_dtype (DataFrame_of_records d) value_col in
  agg "sum" dt cells = Ok (VNum (Series.qsum (Series.nums cells)))
  ∧ agg "count" dt cells = Ok (VNum (Series.Qc_of_nat (length (Series.nums cells))))
  ∧ agg "mean" dt cells
    = Ok (from_option VNum VNull (Series.mean_of (Series.nums cells))).
Proof.
  intros Hn cells dt.
  destruct (group_present_numbers d category_col value_col k Hn)
    as (Hnum & Hnums & Hlen).
  fold cells in Hnum, Hnums, Hlen.
  apply column_dtype_numeric in Hn as [_ Hd]. unfold dt. rewrite Hd.
  unfold agg. simpl. rewrite Hnum, Hnums, Hlen. done.
Qed.

(** X16: for a numeric value column, a present category column and one of
    the reductions 'sum', 'mean' and 'count', [aggregate_by_category] has
    an entry exactly for the values [get_categorical_distribution] counts
    in the category column. *)
Theorem aggregate_keys_are_categories (d : list record)
    (category_col value_col agg_func : string) :
  category_col ∈ table_columns d → numeric_column d value_col →
  named_reduction agg_func →
  ∃ res dist,
    call d (aggregate_by_category category_col value_col agg_func) = Ok res
    ∧ call d (get_categorical_distribution category_col) = Ok dist
    ∧ dom res = dom dist.
Proof.
  intros Hc Hn Hf.
  assert (Hv : value_col ∈ table_columns d) by (by destruct Hn).
  assert (Hg : ∃ g, ∀ k,
    agg agg_func (column_dtype (DataFrame_of_records d) value_col)
        (group_cells (DataFrame_of_records d) category_col value_col k)
    = Ok (g k)).
  { destruct Hf as [->|[->| ->]]; eexists; intros k;
      destruct (agg_numeric d category_col value_col k Hn) as (Hs & Hcn & Hm).
    - exact Hs.
    - exact Hm.
    - exact Hcn. }
  destruct Hg as [g Hg].
  destruct (groupby_agg_lookup _ _ _ _ g Hg) as (m & Hm & Hlook).
  exists m. eexists. split; [by rewrite aggregate_by_category_call|].
  split; [by apply get_categorical_distribution_call|].
  apply set_eq. intros k. rewrite value_counts_dom, elem_of_dom, Hlook.
  rewrite series_of_records.
  destruct (decide _) as [Hin|Hout].
  - split; [done|]. intros _. by eexists.
  - split; [by intros []|done].
Qed.

(** The categories of the sample table. *)
Lemma aggregate_keys_are_categories_witness :
  ∃ res dist,
    call Sample.labelled (aggregate_by_category "category" "value" "sum") = Ok res
    ∧ call Sample.labelled (get_categorical_distribution "category") = Ok dist
    ∧ dom res = dom dist.
Proof.
  apply (aggregate_keys_are_categories Sample.labelled "category" "value" "sum").
  - by vm_compute.
  - split; by vm_compute.
  - by left.
Defined.



Lemma group_of_own_column (df : DataFrame) (col : string) (k : value) :
  k ≠ VNull →
  length (List.filter (λ v, negb (is_null v)) (group_cells df col col k))
  = occurrences k (series df col).
Proof.
  intros Hk. unfold group_cells, series.
  assert (Hnull : is_null k = false) by (by destruct k).
  induction (rows df) as [|r rs IH]; [done|].
  rewrite fmap_cons, occurrences_cons. cbn [List.filter].
  destruct (decide (cell r col = k)) as [Heq|Hne].
  - rewrite bool_decide_eq_true_2 by done. rewrite fmap_cons.
    cbn [List.filter]. rewrite Heq, Hnull. cbn [negb length]. by rewrite IH.
  - rewrite bool_decide_eq_false_2 by done. exact IH.
Qed.

(** X18: counting a column grouped by itself gives the column's
    distribution: [aggregate_by_category(c, c, 'count')] and
    [get_categorical_distribution(c)] have the same keys and the same
    counts. *)
Theorem count_by_itself_is_distribution (d : list record) (column : string) :
  column ∈ table_columns d →
  ∃ res dist,
    call d (aggregate_by_category column column "count") = Ok res
    ∧ call d (get_categorical_distribution column) = Ok dist
    ∧ ∀ k, res !! k = (λ n : nat, VNum (Series.Qc_of_nat n)) <$> dist !! k.
Proof.
  intros Hc.
  destruct (groupby_agg_lookup (DataFrame_of_records d) column column "count"
              (λ k, VNum (Series.Qc_of_nat
                            (length (List.filter (λ v, negb (is_null v))
                                       (group_cells (DataFrame_of_records d)
                                                    column column k))))))
    as (res & Hres & Hlook); [done|].
  exists res. eexists. split; [by rewrite aggregate_by_category_call|].
  split; [by apply get_categorical_distribution_call|].
  intros k. rewrite Hlook, value_counts_lookup, series_of_records.
  destruct (decide (k ≠ VNull ∧ k ∈ column_cells d column)) as [[Hk Hin]|Hout].
  - rewrite group_of_own_column, series_of_records by done.
    rewrite decide_False; [done|]. intros [->|H0]; [done|].
    assert (Hdom : k ∈ dom (Series.value_counts (column_cells d column)))
      by (by apply value_counts_dom).
    apply elem_of_dom in Hdom as [n Hn]. rewrite value_counts_lookup in Hn.
    rewrite decide_True in Hn by (by right). done.
  - rewrite decide_True; [done|].
    destruct (decide (k = VNull)) as [->|Hk]; [by left|]. right.
    assert (Hdom : k ∉ dom (Series.value_counts (column_cells d column))).
    { rewrite value_counts_dom. intros [? ?]. by apply Hout. }
    apply not_elem_of_dom in Hdom. rewrite value_counts_lookup in Hdom.
    destruct (decide (k = VNull ∨ _)) as [[?|?]|?]; done.
Qed.

(** The category column of the sample table. *)
Lemma count_by_itself_is_distribution_witness :
  ∃ res dist,
    call Sample.labelled (aggregate_by_category "category" "category" "count")
    = Ok res
    ∧ call Sample.labelled (get_categorical_distribution "category") = Ok dist
    ∧ ∀ k, res !! k = (λ n : nat, VNum (Series.Qc_of_nat n)) <$> dist !! k.
Proof.
  apply (count_by_itself_is_distribution Sample.labelled "category").
  by vm_compute.
Defined.

End Aggregate.

(** ** The rows of the generator *)
Section GeneratedRows.
Context `{PyRandom}.
Import MockData.

Lemma hoare_pure {S A} (φ : Prop) (P : S → Prop) (m : M S A) (Q : A → S → Prop) :
  (φ → hoare P m Q) → hoare (λ s, φ ∧ P s) m Q.
Proof. intros Hm s [Hφ Hs]. by apply Hm. Qed.

Lemma hoare_choice_value {A} (w0 : World) (seq : list A) :
  seq ≠ [] →
  hoare (same_io w0) (random_choice seq) (λ x w, x ∈ seq ∧ same_io w0 w).
Proof.
  intros Hne w Hw. unfold random_choice.
  destruct seq as [|x seq]; [done|].
  set (n := Z.of_nat (length (x :: seq))).
  unfold mbind', draw.
  pose proof (rng_randbelow_range n (py_random w)) as Hrange.
  destruct (rng_randbelow n (py_random w)) as [i s'] eqn:Hi. simpl in Hrange.
  assert (Hn : 0 < n) by (unfold n; simpl; lia).
  specialize (Hrange Hn).
  destruct (lookup_lt_is_Some_2 (x :: seq) (Z.to_nat i)) as [y Hy].
  { unfold n in Hrange. lia. }
  rewrite Hy. exists y, (set_py_random s' w). split; [done|].
  split; [by eapply list_elem_of_lookup_2|exact Hw].
Qed.

Lemma hoare_randint_value (w0 : World) (a b : Z) :
  a ≤ b →
  hoare (same_io w0) (random_randint a b) (λ r w, a ≤ r ≤ b ∧ same_io w0 w).
Proof.
  intros Hab w Hw. unfold random_randint. rewrite decide_False by lia.
  unfold mbind', draw.
  pose proof (rng_randbelow_range (b - a + 1) (py_random w)) as Hrange.
  destruct (rng_randbelow (b - a + 1) (py_random w)) as [r s'] eqn:Hr.
  simpl in Hrange. specialize (Hrange ltac:(lia)).
  exists (a + r), (set_py_random s' w). split; [done|]. split; [lia|exact Hw].
Qed.

Lemma hoare_make_row_shape (w0 : World) (base_date : Datetime.datetime) (i : Z) :
  hoare (same_io w0) (make_row base_date i)
        (λ row w, grid_row base_date i row ∧ same_io w0 w).
Proof.
  unfold make_row.
  eapply hoare_bind; [by apply hoare_choice_value|].
  intros category. apply hoare_pure. intros Hcategory.
  eapply hoare_bind; [by apply hoare_choice_value|].
  intros region. apply hoare_pure. intros Hregion.
  eapply hoare_bind; [by apply hoare_choice_value|].
  intros status. apply hoare_pure. intros Hstatus.
  eapply hoare_bind; [apply hoare_random_uniform|]. intros value.
  eapply hoare_bind; [by apply hoare_randint_value|].
  intros quantity. apply hoare_pure. intros Hquantity.
  eapply hoare_bind; [apply hoare_random_uniform|]. intros score.
  eapply hoare_bind; [by apply hoare_randint_value|].
  intros days. apply hoare_pure. intros Hdays.
  eapply hoare_bind; [by apply hoare_choice_value|].
  intros priority. apply hoare_pure. intros Hpriority.
  eapply hoare_bind; [apply hoare_random_uniform|]. intros efficiency.
  eapply hoare_bind; [apply hoare_random_uniform|]. intros cost.
  eapply hoare_bind; [apply hoare_random_uniform|]. intros revenue.
  apply hoare_ret. intros w Hw. split; [|exact Hw].
  unfold grid_row, text_in, number_at.
  split; [by rewrite !dom_insert_L, dom_empty_L|].
  split; [by simplify_map_eq|].
  split; [exists category; by simplify_map_eq|].
  split; [exists region; by simplify_map_eq|].
  split; [exists status; by simplify_map_eq|].
  split; [exists priority; by simplify_map_eq|].
  split; [exists quantity; by simplify_map_eq|].
  split; [exists days; by simplify_map_eq|].
  intros c Hc. unfold numeric_grid_columns in Hc.
  repeat (apply elem_of_cons in Hc as [->|Hc];
          [eexists; by simplify_map_eq|]).
  by apply elem_of_nil in Hc.
Qed.

Lemma hoare_grid_loop_shape (w0 : World) (base_date : Datetime.datetime)
    (todo : nat) (i : Z) (data : list record) :
  hoare (same_io w0) (grid_loop base_date todo i data)
        (λ rows w,
           (∃ new, rows = data ++ new ∧ length new = todo
                   ∧ ∀ j r, new !! j = Some r →
                            grid_row base_date (i + Z.of_nat j) r)
           ∧ same_io w0 w).
Proof.
  revert i data. induction todo as [|todo IH]; intros i data; simpl.
  - apply hoare_ret. intros w Hw. split; [|done].
    exists []. split; [by rewrite app_nil_r|]. split; [done|].
    intros j r Hj. by rewrite lookup_nil in Hj.
  - eapply hoare_bind; [apply hoare_make_row_shape|]. intros row.
    apply hoare_pure. intros Hrow w Hw.
    destruct (IH (i + 1) (data ++ [row]) w Hw)
      as (rows & w' & Hrun & (new & -> & Hlen & Hnew) & Hw').
    exists ((data ++ [row]) ++ new), w'. split; [done|]. split; [|done].
    exists (row :: new). split; [by rewrite <- app_assoc|].
    split; [by rewrite <- Hlen|].
    intros [|j] r Hj; simpl in Hj.
    + injection Hj as <-. by rewrite Z.add_0_r.
    + specialize (Hnew j r Hj).
      by replace (i + Z.of_nat (S j)) with (i + 1 + Z.of_nat j) by lia.
Qed.

(** X19: [generate_grid_data] returns [num_rows] rows and changes nothing
    in the world but the state of the random generator.  The row of index
    [j] has the twelve keys, the id [j + 1], a category, region, status and
    priority from the respective list, a quantity between 1 and 100, a
    timestamp of at most 365 days after the base date, and numbers under
    the seven numeric keys. *)
Theorem generate_grid_data_rows (num_rows : Z) (w : World) :
  ∃ rows w',
    generate_grid_data num_rows w = (Ok rows, w')
    ∧ length rows = Z.to_nat num_rows
    ∧ grid_table (Datetime.add_days (clock w) (-365)) rows
    ∧ same_io w w'.
Proof.
  unfold generate_grid_data, mbind', datetime_now, read.
  assert (Hw : same_io w w) by (by repeat split).
  destruct (hoare_grid_loop_shape w (Datetime.add_days (clock w) (-365))
              (Z.to_nat num_rows) 0 [] w Hw)
    as (rows & w' & Hrun & (new & -> & Hlen & Hnew) & Hw').
  exists new, w'. simpl. split; [done|]. split; [done|]. split; [|done].
  intros j r Hj. specialize (Hnew j r Hj). by rewrite Z.add_0_l in Hnew.
Qed.

End GeneratedRows.

(** ** Generated rows in the analytics engine *)
Section GridTable.
Import Pandas Analytics Frame MockData.
Variable base_date : Datetime.datetime.
Variable rows : list record.
Hypothesis Hgrid : grid_table base_date rows.
Hypothesis Hrows : rows ≠ [].

Lemma grid_row_of (r : record) :
  r ∈ rows → ∃ j, grid_row base_date (Z.of_nat j) r.
Proof. intros [j Hj]%list_elem_of_lookup_1. exists j. by eapply Hgrid. Qed.

Lemma grid_rows_dom : Forall (λ r, dom r = list_to_set grid_columns) rows.
Proof.
  apply Forall_forall. intros r Hr.
  by destruct (grid_row_of r Hr) as (j & Hdom & _).
Qed.

Lemma grid_table_columns : table_columns rows = list_to_set grid_columns.
Proof. apply union_dom_nonempty; [done|apply grid_rows_dom]. Qed.

Lemma grid_uniform : uniform rows.
Proof.
  intros r1 r2 H1 H2. pose proof grid_rows_dom as Hall.
  rewrite Forall_forall in Hall. by rewrite (Hall r1 H1), (Hall r2 H2).
Qed.

Lemma grid_completed : completed rows = rows.
Proof.
  rewrite <- (rows_of_uniform rows grid_uniform) at 2.
  by rewrite rows_of_records.
Qed.

Lemma grid_cell_number (r : record) (c : string) :
  r ∈ rows → c ∈ numeric_grid_columns → ∃ x, cell r c = VNum x.
Proof.
  intros Hr Hc. destruct (grid_row_of r Hr) as (j & Hrow).
  destruct Hrow as (_ & _ & _ & _ & _ & _ & _ & _ & Hnum).
  destruct (Hnum c Hc) as [x Hx]. exists x. unfold cell. by rewrite Hx.
Qed.

Lemma grid_cell_text (r : record) (c : string) :
  r ∈ rows → c ∈ grid_columns → c ∉ numeric_grid_columns →
  ∃ s, cell r c = VStr s.
Proof.
  intros Hr Hc Hnot. destruct (grid_row_of r Hr) as (j & Hrow).
  destruct Hrow as (_ & _ & (s1 & _ & H1) & (s2 & _ & H2) & (s3 & _ & H3)
                    & (s4 & _ & H4) & _ & (k & _ & H5) & _).
  unfold cell, grid_columns in *.
  repeat (apply elem_of_cons in Hc as [->|Hc];
          [first [ by (exfalso; apply Hnot; unfold numeric_grid_columns;
                       set_solver)
                 | rewrite ?H1, ?H2, ?H3, ?H4, ?H5; by eexists ]|]).
  by apply elem_of_nil in Hc.
Qed.

Lemma grid_some_row : ∃ r, r ∈ rows.
Proof.
  destruct (rows !! 0%nat) as [r|] eqn:Hr.
  - exists r. by eapply list_elem_of_lookup_2.
  - apply lookup_ge_None in Hr. exfalso. apply Hrows, nil_length_inv. lia.
Qed.

Lemma grid_numeric_columns (c : string) :
  numeric_column rows c ↔ c ∈ numeric_grid_columns.
Proof.
  unfold numeric_column. rewrite grid_table_columns.
  destruct grid_some_row as [r Hr]. split.
  - intros [Hc Hn]. destruct (decide (c ∈ numeric_grid_columns)); [done|].
    exfalso. destruct (grid_cell_text r c) as [s Hs]; [done|set_solver|done|].
    unfold infer_dtype in Hn.
    destruct (forallb _ _) eqn:Hall; [|done].
    rewrite forallb_forall in Hall.
    specialize (Hall (cell r c)). rewrite Hs in Hall. simpl in Hall.
    assert (Hfalse : false = true); [|done].
    apply Hall, list_elem_of_In, list_elem_of_fmap. by exists r.
  - intros Hc. split.
    { unfold numeric_grid_columns, grid_columns in *. set_solver. }
    unfold infer_dtype.
    assert (Hall : forallb (λ v, is_num v || is_null v)
                           ((λ r, cell r c) <$> rows) = true).
    { apply forallb_forall. intros v Hv%list_elem_of_In.
      apply list_elem_of_fmap in Hv as (r' & -> & Hr').
      by destruct (grid_cell_number r' c Hr' Hc) as [x ->]. }
    assert (Hex : existsb is_num ((λ r, cell r c) <$> rows) = true).
    { apply existsb_exists. exists (cell r c). split.
      - apply list_elem_of_In, list_elem_of_fmap. by exists r.
      - by destruct (grid_cell_number r c Hr Hc) as [x ->]. }
    by rewrite Hall, Hex.
Qed.

Lemma grid_rows_distinct : NoDup rows.
Proof.
  apply NoDup_alt. intros j1 j2 r H1 H2.
  destruct (Hgrid j1 r H1) as (_ & Hid1 & _).
  destruct (Hgrid j2 r H2) as (_ & Hid2 & _).
  rewrite Hid1 in Hid2. injection Hid2 as Hid. lia.
Qed.

Lemma grid_cell_present (r : record) (c : string) :
  r ∈ rows → c ∈ grid_columns → is_null (cell r c) = false.
Proof.
  intros Hr Hc. destruct (decide (c ∈ numeric_grid_columns)) as [Hn|Hn].
  - by destruct (grid_cell_number r c Hr Hn) as [x ->].
  - by destruct (grid_cell_text r c Hr Hc Hn) as [s ->].
Qed.

End GridTable.

Lemma filter_is_null_none (cells : list value) :
  Forall (λ v, is_null v = false) cells → List.filter is_null cells = [].
Proof. induction 1 as [|v vs Hv _ IH]; [done|]. simpl. by rewrite Hv. Qed.

Section GeneratedAnalysed.
Context `{PyRandom}.
Import Pandas Analytics Frame MockData.

(** A positive number of rows gives a grid table that is not empty. *)
Lemma generate_grid_data_table (num_rows : Z) (w : World) :
  0 < num_rows →
  ∃ rows w',
    generate_grid_data num_rows w = (Ok rows, w')
    ∧ length rows = Z.to_nat num_rows
    ∧ grid_table (Datetime.add_days (clock w) (-365)) rows
    ∧ rows ≠ [].
Proof.
  intros Hn.
  unfold generate_grid_data, mbind', datetime_now, read.
  assert (Hw : same_io w w) by (by repeat split).
  destruct (hoare_grid_loop_shape w (Datetime.add_days (clock w) (-365))
              (Z.to_nat num_rows) 0 [] w Hw)
    as (rows & w' & Hrun & (new & -> & Hlen & Hnew) & Hw').
  exists new, w'. simpl. split; [done|]. split; [done|]. split.
  - intros j r Hj. specialize (Hnew j r Hj). by rewrite Z.add_0_l in Hnew.
  - intros ->. simpl in Hlen. lia.
Qed.

(** X20: in a table the generator made, the numeric columns are id, value,
    quantity, score, efficiency, cost and revenue; the summary statistics
    have exactly these keys, and the top five by value are
    [min(5, num_rows)] rows of the table. *)
Theorem generated_data_ranks_by_value (num_rows : Z) (w : World) :
  0 < num_rows →
  ∃ rows w' summary top,
    generate_grid_data num_rows w = (Ok rows, w')
    ∧ (∀ c, numeric_column rows c ↔ c ∈ numeric_grid_columns)
    ∧ call rows get_summary_statistics = Ok summary
    ∧ dom summary = list_to_set numeric_grid_columns
    ∧ call rows (get_top_n "value" 5 false) = Ok top
    ∧ Z.of_nat (length top) = Z.min 5 num_rows
    ∧ ∀ r, r ∈ top → r ∈ rows.
Proof.
  intros Hn.
  destruct (generate_grid_data_table num_rows w Hn)
    as (rows & w' & Hrun & Hlen & Hgrid & Hne).
  pose proof (grid_numeric_columns _ rows Hgrid Hne) as Hnum.
  exists rows, w'. eexists.
  exists (take 5 (stable_sort (row_before false "value") rows)).
  split; [exact Hrun|]. split; [exact Hnum|].
  split; [reflexivity|]. split.
  { rewrite dom_foldl_insert, dom_empty_L, (left_id_L ∅ (∪)).
    apply set_eq. intros c.
    rewrite !elem_of_list_to_set, elem_of_elements, <- Hnum.
    symmetry. apply numeric_column_selected. }
  assert (Hvalue : numeric_column rows "value").
  { apply Hnum. unfold numeric_grid_columns. set_solver. }
  apply column_dtype_numeric in Hvalue as [Hc Hd].
  rewrite get_top_n_call, Hd by done.
  rewrite (grid_completed _ rows Hgrid).
  split; [reflexivity|]. split.
  - rewrite length_take, (length_stable_sort _ rows), Hlen. lia.
  - intros r (i & Hr & _)%elem_of_take. apply list_elem_of_lookup_2 in Hr.
    by rewrite (stable_sort_perm (row_before false "value") rows) in Hr.
Qed.

(** X21: the quality report of a table the generator made counts
    [num_rows] rows and twelve columns, no duplicate row and no missing
    value. *)
Theorem generated_data_quality (num_rows : Z) (w : World) :
  0 < num_rows →
  ∃ rows w' rep,
    generate_grid_data num_rows w = (Ok rows, w')
    ∧ call rows get_data_quality_report = Ok rep
    ∧ Z.of_nat (total_rows rep) = num_rows
    ∧ total_columns rep = 12%nat
    ∧ duplicate_rows rep = 0%nat
    ∧ ∀ c, c ∈ grid_columns → missing_values rep !! c = Some 0%nat.
Proof.
  intros Hn.
  destruct (generate_grid_data_table num_rows w Hn)
    as (rows & w' & Hrun & Hlen & Hgrid & Hne).
  exists rows, w'. eexists. split; [exact Hrun|]. split; [reflexivity|].
  cbn [total_rows total_columns duplicate_rows missing_values].
  change (Pandas.rows (df (Analytics.init rows))) with (completed rows).
  change (columns (df (Analytics.init rows)))
    with (columns (DataFrame_of_records rows)).
  rewrite (grid_completed _ rows Hgrid), columns_of_records.
  fold (table_columns rows). rewrite (grid_table_columns _ rows Hgrid Hne).
  split; [lia|]. split; [by vm_compute|]. split.
  { apply duplicated_count_zero. split.
    - by apply (grid_rows_distinct _ rows Hgrid).
    - intros r _ Hr. by apply elem_of_nil in Hr. }
  intros c Hc. apply lookup_set_to_map; [naive_solver|].
  exists c. split; [by apply elem_of_list_to_set|]. f_equal.
  change (series (df (Analytics.init rows)) c)
    with (series (DataFrame_of_records rows) c).
  rewrite series_of_records. unfold column_cells.
  apply length_zero_iff_nil.
  apply filter_is_null_none, Forall_fmap, Forall_forall. intros r Hr. simpl.
  by apply (grid_cell_present _ rows Hgrid).
Qed.

(** X22: in a table the generator made, the distributions of category,
    region and status have their keys in the respective list of choices,
    and the counts of each add up to [num_rows]. *)
Theorem generated_data_distributions (num_rows : Z) (w : World) :
  0 < num_rows →
  ∃ rows w',
    generate_grid_data num_rows w = (Ok rows, w')
    ∧ ∀ col choices,
        (col, choices) ∈ [("category", categories); ("region", regions);
                          ("status", statuses)] →
        ∃ dist,
          call rows (get_categorical_distribution col) = Ok dist
          ∧ (∀ k, k ∈ dom dist → ∃ s, s ∈ choices ∧ k = VStr s)
          ∧ Z.of_nat (total dist) = num_rows.
Proof.
  intros Hn.
  destruct (generate_grid_data_table num_rows w Hn)
    as (rows & w' & Hrun & Hlen & Hgrid & Hne).
  exists rows, w'. split; [exact Hrun|]. intros col choices Hcol.
  assert (Hc : col ∈ grid_columns).
  { unfold grid_columns. set_solver. }
  assert (Htext : ∀ r, r ∈ rows → text_in r col choices).
  { intros r Hr. destruct (grid_row_of _ rows Hgrid r Hr) as (j & Hrow).
    destruct Hrow as (_ & _ & H1 & H2 & H3 & _).
    repeat (apply elem_of_cons in Hcol as [[= -> ->]|Hcol]; [done|]).
    by apply elem_of_nil in Hcol. }
  eexists. split.
  { apply get_categorical_distribution_call.
    rewrite (grid_table_columns _ rows Hgrid Hne).
    by apply elem_of_list_to_set. }
  split.
  - intros k [_ Hk]%value_counts_dom.
    apply list_elem_of_fmap in Hk as (r & -> & Hr).
    destruct (Htext r Hr) as (s & Hs & Hlook). exists s. split; [done|].
    unfold cell. by rewrite Hlook.
  - rewrite total_value_counts.
    pose proof (missing_and_present (column_cells rows col)) as Hsum.
    assert (Hnone : List.filter is_null (column_cells rows col) = []).
    { apply filter_is_null_none, Forall_fmap, Forall_forall. intros r Hr. simpl.
      by apply (grid_cell_present _ rows Hgrid). }
    rewrite Hnone in Hsum. simpl in Hsum. rewrite Hsum.
    unfold column_cells. rewrite length_fmap. lia.
Qed.

End GeneratedAnalysed.

(** Three rows from the sample world. *)
Lemma generated_data_ranks_by_value_witness :
  ∃ rows w' summary top,
    MockData.generate_grid_data 3 (Sample.world_at Sample.instant) = (Ok rows, w')
    ∧ (∀ c, numeric_column rows c ↔ c ∈ numeric_grid_columns)
    ∧ Analytics.call rows Analytics.get_summary_statistics = Ok summary
    ∧ dom summary = list_to_set numeric_grid_columns
    ∧ Analytics.call rows (Analytics.get_top_n "value" 5 false) = Ok top
    ∧ Z.of_nat (length top) = Z.min 5 3
    ∧ ∀ r, r ∈ top → r ∈ rows.
Proof.
  apply (generated_data_ranks_by_value 3 (Sample.world_at Sample.instant)).
  lia.
Defined.


(** Three rows from the sample world. *)
Lemma generated_data_quality_witness :
  ∃ rows w' rep,
    MockData.generate_grid_data 3 (Sample.world_at Sample.instant) = (Ok rows, w')
    ∧ Analytics.call rows Analytics.get_data_quality_report = Ok rep
    ∧ Z.of_nat (Analytics.total_rows rep) = 3
    ∧ Analytics.total_columns rep = 12%nat
    ∧ Analytics.duplicate_rows rep = 0%nat
    ∧ ∀ c, c ∈ grid_columns → Analytics.missing_values rep !! c = Some 0%nat.
Proof.
  apply (generated_data_quality 3 (Sample.world_at Sample.instant)). lia.
Defined.

(** Three rows from the sample world. *)
Lemma generated_data_distributions_witness :
  ∃ rows w',
    MockData.generate_grid_data 3 (Sample.world_at Sample.instant) = (Ok rows, w')
    ∧ ∀ col choices,
        (col, choices) ∈ [("category", MockData.categories);
                          ("region", MockData.regions);
                          ("status", MockData.statuses)] →
        ∃ dist,
          Analytics.call rows (Analytics.get_categorical_distribution col) = Ok dist
          ∧ (∀ k, k ∈ dom dist → ∃ s, s ∈ choices ∧ k = VStr s)
          ∧ Z.of_nat (total dist) = 3.
Proof.
  apply (generated_data_distributions 3 (Sample.world_at Sample.instant)). lia.
Defined.

(** ** The paths of load_data *)
Section LoadDataPaths.
Context `{PyRandom}.
Variable engine_of_json : Http.json → result Analytics.DataAnalytics.
Import Orchestrator Fetcher Http.

Lemma health_check_true_frame (f : OmniGridFetcher) (w w1 : World) :
  (health_check f w).1 = Ok true →
  network w1 = network w → requests_made w1 = requests_made w →
  ∃ w1', health_check f w1 = (Ok true, w1')
         ∧ py_random w1' = py_random w1 ∧ clock w1' = clock w1
         ∧ stdout w1' = stdout w1 ∧ network w1' = network w
         ∧ requests_made w1' = S (requests_made w).
Proof.
  unfold health_check, mbind', session_get, mret'. simpl.
  intros Hhc -> ->.
  destruct (network w (requests_made w) _) as [msg|status_code content];
    simpl in *; [done|].
  injection Hhc as ->. by eexists.
Qed.

(** A failed request for the grid gives [None]. *)
Lemma fetch_grid_data_failed (f : OmniGridFetcher) (w : World) :
  request_failed (network w (requests_made w) (fetch_request f "grid" None 30)) →
  ∃ w', fetch_grid_data f w = (Ok JNull, w')
        ∧ py_random w' = py_random w ∧ clock w' = clock w
        ∧ network w' = network w
        ∧ requests_made w' = S (requests_made w).
Proof.
  unfold request_failed, fetch_grid_data, fetch_data, try_fetch, fetch_request,
    mbind', session_get, raise_for_status, print, modify, mret'. simpl.
  destruct (network w (requests_made w) _) as [msg|status_code [j|cls msg]];
    simpl; intros Hfail.
  - by eexists.
  - rewrite bool_decide_eq_true_2 by done. simpl. by eexists.
  - destruct (bool_decide _); simpl; [by eexists|].
    destruct cls; simpl; by eexists.
Qed.

(** A body that arrived is passed on: a non-empty list as it is, of a
    non-empty object its entry 'data' or else the object as the one
    element of a list. *)
Lemma fetch_grid_data_answered (f : OmniGridFetcher) (w : World) (j : json) :
  answered (network w (requests_made w) (fetch_request f "grid" None 30)) j →
  ∃ w', fetch_grid_data f w
        = (Ok match j with
              | JArr _ => if truthy j then j else JNull
              | JObj fields =>
                  if truthy j then default (JArr [j]) (obj_get fields "data")
                  else JNull
              | _ => JNull
              end, w')
        ∧ py_random w' = py_random w ∧ clock w' = clock w
        ∧ stdout w' = stdout w ∧ network w' = network w
        ∧ requests_made w' = S (requests_made w).
Proof.
  unfold answered, fetch_grid_data, fetch_data, try_fetch, fetch_request,
    mbind', session_get, raise_for_status, print, modify, mret'. simpl.
  intros (status_code & -> & Hgood). simpl.
  rewrite bool_decide_eq_false_2 by done. simpl.
  destruct j as [|b|x|s|items|fields]; simpl; try (by eexists).
  - destruct (negb _); by eexists.
  - destruct (negb _); by eexists.
Qed.

(** X23: in mock mode [load_data] asks the network nothing.  It stores
    the records the generator makes from the current state and clock and
    prints the banner and two lines; with a positive [num_records] it
    builds the engine from the records and returns [True], otherwise it
    returns [False] and leaves the engine as it was. *)
Theorem load_data_mock_mode (st : ToolState) (num_records : Z) :
  use_mock_data (self st) = true →
  ∃ records st',
    load_data engine_of_json num_records st
    = (Ok (bool_decide (0 < num_records)), st')
    ∧ generated_from (world st) num_records records
    ∧ data (self st') = DRecords records
    ∧ length records = Z.to_nat num_records
    ∧ analytics (self st')
      = (if decide (0 < num_records) then Some (Analytics.init records)
         else analytics (self st))
    ∧ requests_made (world st') = requests_made (world st)
    ∧ stdout (world st')
      = stdout (world st) ++ loading_banner
        ++ ["Using mock data generator...";
            "✓ Generated " +:+ pretty (length records) +:+ " mock records"].
Proof.
  intros Hmock. destruct st as [[mock f d a] w]. simpl in Hmock. subst mock.
  unfold load_data, use_mock_generator.
  unfold mbind', say, in_world, print, modify, read, mret'. simpl.
  match goal with |- context [MockData.generate_grid_data num_records ?w2] =>
    destruct (generate_grid_data_runs num_records w2)
      as (rows & w3 & Hgen & Hlen & Hio);
    assert (Hfrom : generated_from w num_records rows)
      by (exists w2; by rewrite Hgen)
  end.
  rewrite Hgen. simpl. destruct Hio as (_ & _ & Hout & _ & Hreq).
  simpl in Hout, Hreq.
  assert (Hlen' : Z.of_nat (length rows) = Z.max 0 num_records) by lia.
  exists rows.
  destruct (decide (0 < num_records)) as [Hpos|Hneg].
  - rewrite (bool_decide_eq_true_2 (0 < num_records)) by done.
    destruct rows as [|row rows]; [cbn [length] in Hlen'; lia|].
    simpl. eexists. split; [reflexivity|].
    cbn [self world data analytics stdout requests_made].
    rewrite Hout, Hreq. split; [done|]. split; [done|]. split; [exact Hlen|].
    split; [done|]. split; [done|]. by rewrite <- !app_assoc.
  - rewrite (bool_decide_eq_false_2 (0 < num_records)) by done.
    destruct rows as [|row rows]; [|cbn [length] in Hlen'; lia].
    simpl. eexists. split; [reflexivity|].
    cbn [self world data analytics stdout requests_made].
    rewrite Hout, Hreq. split; [done|]. split; [done|]. split; [exact Hlen|].
    split; [done|]. split; [done|]. by rewrite <- !app_assoc.
Qed.

(** X24: when the API is healthy but the request for the grid fails,
    [load_data] falls back to the generator as it does without the API:
    for a positive [num_records] it stores that many generated records,
    builds the engine from them and returns [True]. *)
Theorem load_data_falls_back_on_failed_fetch (st : ToolState) (num_records : Z) :
  use_mock_data (self st) = false →
  healthy st →
  request_failed (grid_answer st) →
  1 ≤ num_records →
  fallback_as_claimed engine_of_json st num_records.
Proof.
  intros Hmock Hhc Hfail Hn. destruct st as [[mock f d a] w].
  simpl in Hmock. subst mock.
  unfold healthy in Hhc. unfold grid_answer in Hfail. simpl in Hhc, Hfail.
  unfold fallback_as_claimed. unfold load_data, use_mock_generator.
  unfold mbind', say, in_world, print, modify, read, mret'. simpl.
  match goal with |- context [health_check f ?w1] =>
    destruct (health_check_true_frame f w w1 Hhc eq_refl eq_refl)
      as (w1' & -> & Hrng & Hclock & Hout & Hnet & Hreq)
  end.
  simpl in Hrng, Hclock, Hout. simpl.
  destruct (fetch_grid_data_failed f w1')
    as (w2 & -> & Hrng2 & Hclock2 & Hnet2 & Hreq2).
  { by rewrite Hnet, Hreq. }
  simpl.
  match goal with |- context [MockData.generate_grid_data num_records ?w3] =>
    destruct (generate_grid_data_runs num_records w3)
      as (rows & w4 & Hgen & Hlen & _);
    assert (Hfrom : generated_from w num_records rows)
      by (exists w3; simpl; rewrite Hgen, Hrng2, Hclock2, Hrng, Hclock; done)
  end.
  rewrite Hgen. simpl.
  destruct rows as [|row rows]; [simpl in Hlen; lia|].
  simpl. exists (row :: rows). eexists. split; [reflexivity|]. simpl.
  split; [done|]. split; [done|]. split; [|done].
  rewrite length_cons in Hlen. lia.
Qed.

(** X25: when the API is healthy and answers the request for the grid
    with a non-empty list of flat records, [load_data] stores the list,
    builds the engine from its records and returns [True]; it makes two
    requests and draws nothing from the random generator. *)
Theorem load_data_uses_api_records (st : ToolState) (num_records : Z)
    (items : list json) (records : list record) :
  use_mock_data (self st) = false →
  healthy st →
  answered (grid_answer st) (JArr items) →
  items ≠ [] →
  records_of_json (JArr items) = Some records →
  ∃ st',
    load_data engine_of_json num_records st = (Ok true, st')
    ∧ data (self st') = DJson (JArr items)
    ∧ analytics (self st') = Some (Analytics.init records)
    ∧ py_random (world st') = py_random (world st)
    ∧ requests_made (world st') = S (S (requests_made (world st)))
    ∧ stdout (world st')
      = stdout (world st) ++ loading_banner
        ++ ["Attempting to fetch data from omni-grid API...";
            "✓ Fetched " +:+ pretty (length items) +:+ " records from API"].
Proof.
  intros Hmock Hhc Hans Hne Hrec. destruct st as [[mock f d a] w].
  simpl in Hmock. subst mock.
  unfold healthy in Hhc. unfold grid_answer in Hans. simpl in Hhc, Hans.
  unfold load_data, use_mock_generator.
  unfold mbind', say, in_world, print, modify, read, mret'. simpl.
  match goal with |- context [health_check f ?w1] =>
    destruct (health_check_true_frame f w w1 Hhc eq_refl eq_refl)
      as (w1' & -> & Hrng & Hclock & Hout & Hnet & Hreq)
  end.
  simpl in Hrng, Hclock, Hout. simpl.
  destruct (fetch_grid_data_answered f w1' (JArr items))
    as (w2 & -> & Hrng2 & Hclock2 & Hout2 & Hnet2 & Hreq2).
  { by rewrite Hnet, Hreq. }
  destruct items as [|item items]; [done|].
  simpl in Hrec |- *. rewrite Hrec. simpl.
  eexists. split; [reflexivity|]. simpl.
  rewrite Hrng2, Hrng, Hreq2, Hreq, Hout2, Hout.
  split; [done|]. split; [done|]. split; [done|]. split; [done|].
  by rewrite <- !app_assoc.
Qed.

(** X26: when the API is healthy and answers the request for the grid
    with an object whose entry 'data' is a non-zero number or [true],
    [load_data] raises a [TypeError]: the entry counts as loaded data, and
    it has no length to report. *)
Theorem load_data_scalar_payload_raises (st : ToolState) (num_records : Z)
    (fields : list (string * json)) (v : json) :
  use_mock_data (self st) = false →
  healthy st →
  answered (grid_answer st) (JObj fields) →
  obj_get fields "data" = Some v →
  (v = JBool true ∨ ∃ x, v = JNum x ∧ x ≠ 0%Qc) →
  (load_data engine_of_json num_records st).1 = Raise TypeError.
Proof.
  intros Hmock Hhc Hans Hget Hv. destruct st as [[mock f d a] w].
  simpl in Hmock. subst mock.
  unfold healthy in Hhc. unfold grid_answer in Hans. simpl in Hhc, Hans.
  unfold load_data, use_mock_generator.
  unfold mbind', say, in_world, print, modify, read, mret'. simpl.
  match goal with |- context [health_check f ?w1] =>
    destruct (health_check_true_frame f w w1 Hhc eq_refl eq_refl)
      as (w1' & -> & Hrng & Hclock & Hout & Hnet & Hreq)
  end.
  simpl in Hrng, Hclock, Hout. simpl.
  destruct (fetch_grid_data_answered f w1' (JObj fields))
    as (w2 & -> & _).
  { by rewrite Hnet, Hreq. }
  destruct fields as [|field fields]; [done|].
  cbn [truthy length negb bool_decide]. rewrite Hget. simpl.
  destruct Hv as [->|(x & -> & Hx)]; simpl; [done|].
  by rewrite bool_decide_eq_false_2.
Qed.

End LoadDataPaths.

(** Three records in mock mode. *)
Lemma load_data_mock_mode_witness :
  ∃ records st',
    Orchestrator.load_data Sample.no_engine 3 mock_tool
    = (Ok (bool_decide (0 < 3)), st')
    ∧ generated_from (Orchestrator.world mock_tool) 3 records
    ∧ Orchestrator.data (Orchestrator.self st') = Orchestrator.DRecords records
    ∧ length records = Z.to_nat 3
    ∧ Orchestrator.analytics (Orchestrator.self st')
      = (if decide (0 < 3) then Some (Analytics.init records)
         else Orchestrator.analytics (Orchestrator.self mock_tool))
    ∧ requests_made (Orchestrator.world st')
      = requests_made (Orchestrator.world mock_tool)
    ∧ stdout (Orchestrator.world st')
      = stdout (Orchestrator.world mock_tool) ++ loading_banner
        ++ ["Using mock data generator...";
            "✓ Generated " +:+ pretty (length records) +:+ " mock records"].
Proof.
  apply (load_data_mock_mode Sample.no_engine mock_tool 3). reflexivity.
Defined.

(** The health check is answered, the request for the grid gets a 503. *)
Lemma load_data_falls_back_on_failed_fetch_witness :
  fallback_as_claimed Sample.no_engine
    (online_tool [ok_with Http.JNull;
                  Http.Response 503 (Http.Decoded Http.JNull)]) 2.
Proof.
  apply (load_data_falls_back_on_failed_fetch Sample.no_engine
           (online_tool [ok_with Http.JNull;
                         Http.Response 503 (Http.Decoded Http.JNull)]) 2).
  - reflexivity.
  - reflexivity.
  - unfold request_failed, grid_answer. simpl. lia.
  - lia.
Defined.

(** The API answers with one record. *)
Lemma load_data_uses_api_records_witness :
  ∃ st',
    Orchestrator.load_data Sample.no_engine 5
      (online_tool [ok_with Http.JNull;
                    ok_with (Http.JArr [Http.JObj [("id", Http.JNum 1)]])])
    = (Ok true, st')
    ∧ Orchestrator.data (Orchestrator.self st')
      = Orchestrator.DJson (Http.JArr [Http.JObj [("id", Http.JNum 1)]])
    ∧ Orchestrator.analytics (Orchestrator.self st')
      = Some (Analytics.init [ {[ "id" := VNum 1 ]} ])
    ∧ py_random (Orchestrator.world st') = (7 : @rng_state Sample.lcg)
    ∧ requests_made (Orchestrator.world st') = 2%nat
    ∧ stdout (Orchestrator.world st')
      = [] ++ loading_banner
        ++ ["Attempting to fetch data from omni-grid API...";
            "✓ Fetched " +:+ pretty 1%nat +:+ " records from API"].
Proof.
  apply (load_data_uses_api_records Sample.no_engine
           (online_tool [ok_with Http.JNull;
                         ok_with (Http.JArr [Http.JObj [("id", Http.JNum 1)]])])
           5 [Http.JObj [("id", Http.JNum 1)]] [ {[ "id" := VNum 1 ]} ]).
  - reflexivity.
  - reflexivity.
  - exists 200. split; [reflexivity|lia].
  - done.
  - reflexivity.
Defined.

(** The API answers [{"data": 5}]. *)
Lemma load_data_scalar_payload_raises_witness :
  (Orchestrator.load_data Sample.no_engine 5
     (online_tool [ok_with Http.JNull;
                   ok_with (Http.JObj [("data", Http.JNum (Qc_of_Z 5))])])).1
  = Raise TypeError.
Proof.
  apply (load_data_scalar_payload_raises Sample.no_engine
           (online_tool [ok_with Http.JNull;
                         ok_with (Http.JObj [("data", Http.JNum (Qc_of_Z 5))])])
           5 [("data", Http.JNum (Qc_of_Z 5))] (Http.JNum (Qc_of_Z 5))).
  - reflexivity.
  - reflexivity.
  - exists 200. split; [reflexivity|lia].
  - reflexivity.
  - right. exists (Qc_of_Z 5). split; [done|]. intros Heq. discriminate Heq.
Defined.

(** ** The methods of the fetcher *)
Section FetcherMethods.
Context `{PyRandom}.
Import Fetcher Http.



End FetcherMethods.

Section RequestUrl.
Import Fetcher Http.

Lemma drop_slashes_spec (cs : list ascii) :
  ∃ n, cs = replicate n "/"%char ++ drop_slashes cs
       ∧ head (drop_slashes cs) ≠ Some "/"%char.
Proof.
  induction cs as [|c cs IH]; [by exists 0%nat|]. simpl.
  case_bool_decide as Hc.
  - destruct IH as (n & Heq & Hhead). exists (S n). simpl.
    by rewrite Hc, <- Heq.
  - exists 0%nat. split; [done|]. simpl. by intros [= ?].
Qed.

Lemma rev_is_reverse {A} (l : list A) : rev l = reverse l.
Proof. apply rev_alt. Qed.

Lemma chars_of_append (a b : string) :
  list_ascii_of_string (a +:+ b)
  = list_ascii_of_string a ++ list_ascii_of_string b.
Proof. induction a as [|c a IH]; [done|]. simpl. by rewrite IH. Qed.

Lemma last_app_replicate {A} (c : A) (l : list A) (m : nat) :
  last (l ++ c :: replicate m c) = Some c.
Proof.
  change (c :: replicate m c) with (replicate (S m) c).
  by rewrite (replicate_S_end m c), app_assoc, last_snoc.
Qed.

(** A list is determined by what is left of it without the trailing
    copies of a character. *)
Lemma stripped_unique {A} (c : A) (l1 l2 : list A) (n m : nat) :
  l1 ++ replicate n c = l2 ++ replicate m c →
  last l1 ≠ Some c → last l2 ≠ Some c → l1 = l2.
Proof.
  revert m. induction n as [|n IH]; intros [|m] Heq H1 H2; simpl in Heq.
  - by rewrite !app_nil_r in Heq.
  - rewrite app_nil_r in Heq. subst l1. by rewrite last_app_replicate in H1.
  - rewrite app_nil_r in Heq. subst l2. by rewrite last_app_replicate in H2.
  - apply (IH m); [|done..].
    change (c :: replicate n c) with (replicate (S n) c) in Heq.
    change (c :: replicate m c) with (replicate (S m) c) in Heq.
    rewrite (replicate_S_end n c), (replicate_S_end m c), !app_assoc in Heq.
    by apply app_inj_tail in Heq as [Heq _].
Qed.

Lemma rstrip_slash_spec (s : string) :
  ∃ n, list_ascii_of_string s
       = list_ascii_of_string (rstrip_slash s) ++ replicate n "/"%char
       ∧ ¬ ends_in_slash (rstrip_slash s).
Proof.
  unfold rstrip_slash, ends_in_slash.
  rewrite list_ascii_of_string_of_list_ascii.
  destruct (drop_slashes_spec (rev (list_ascii_of_string s)))
    as (n & Heq & Hhead).
  exists n. split.
  - rewrite <- (rev_involutive (list_ascii_of_string s)) at 1.
    rewrite Heq at 1. rewrite rev_app_distr. f_equal.
    by rewrite rev_is_reverse, reverse_replicate.
  - rewrite rev_is_reverse, last_reverse. exact Hhead.
Qed.

(** X28: the URL [fetch_data] requests is [base_url/endpoint] without its
    trailing slashes, so it never ends in a slash; for the empty endpoint
    and a base URL that does not end in a slash it is the base URL, the
    address the health check asks. *)
Theorem fetch_url_without_trailing_slash (self : OmniGridFetcher)
    (endpoint : string) (params : option (list (string * string)))
    (timeout : Z) :
  let url := req_url (fetch_request self endpoint params timeout) in
  (∃ n, list_ascii_of_string (base_url self +:+ "/" +:+ endpoint)
        = list_ascii_of_string url ++ replicate n "/"%char)
  ∧ ¬ ends_in_slash url
  ∧ (endpoint = "" → ¬ ends_in_slash (base_url self) → url = base_url self).
Proof.
  simpl.
  destruct (rstrip_slash_spec (base_url self +:+ "/" +:+ endpoint))
    as (n & Heq & Hend).
  split; [by exists n|]. split; [done|].
  intros -> Hbase.
  rewrite !chars_of_append, app_nil_r in Heq.
  assert (Hchars : list_ascii_of_string (rstrip_slash (base_url self +:+ "/" +:+ ""))
                   = list_ascii_of_string (base_url self)).
  { symmetry. by apply (stripped_unique "/"%char _ _ 1 n). }
  rewrite <- (string_of_list_ascii_of_string (rstrip_slash _)), Hchars.
  apply string_of_list_ascii_of_string.
Qed.

End RequestUrl.

(** ** The metrics and the time series of the generator *)
Section Rounding.








End Rounding.

Section MetricsAndSeries.
Context `{PyRandom}.
Import MockSeries.

Lemma hoare_datetime_now (w0 : World) :
  hoare (same_io w0) datetime_now (λ now w, now = clock w0 ∧ same_io w0 w).
Proof.
  intros w Hw. exists (clock w), w. split; [done|]. split; [|done].
  by destruct Hw as (_ & -> & _).
Qed.

(** X29: [generate_metrics] returns a dictionary of six entries with
    between 1000 and 10000 total records, between 50 and 500 active users,
    three numbers, and the time of the call as the time of the last
    update; it changes nothing but the state of the random generator. *)
Theorem generate_metrics_shape (w : World) :
  ∃ m w',
    generate_metrics w = (Ok m, w')
    ∧ same_io w w'
    ∧ dom m = list_to_set ["total_records"; "active_users"; "avg_response_time";
                           "success_rate"; "uptime"; "last_updated"]
    ∧ integer_in m "total_records" 1000 10000
    ∧ integer_in m "active_users" 50 500
    ∧ number_at m "avg_response_time"
    ∧ number_at m "success_rate"
    ∧ number_at m "uptime"
    ∧ m !! "last_updated" = Some (VStr (Datetime.isoformat (clock w))).
Proof.
  assert (Hrun : hoare (same_io w) generate_metrics
    (λ m w',
       same_io w w'
       ∧ dom m = list_to_set ["total_records"; "active_users";
                              "avg_response_time"; "success_rate"; "uptime";
                              "last_updated"]
       ∧ integer_in m "total_records" 1000 10000
       ∧ integer_in m "active_users" 50 500
       ∧ number_at m "avg_response_time"
       ∧ number_at m "success_rate"
       ∧ number_at m "uptime"
       ∧ m !! "last_updated" = Some (VStr (Datetime.isoformat (clock w))))).
  { unfold generate_metrics.
    eapply hoare_bind; [by apply hoare_randint_value|].
    intros total_records. apply hoare_pure. intros Htotal.
    eapply hoare_bind; [by apply hoare_randint_value|].
    intros active_users. apply hoare_pure. intros Hactive.
    eapply hoare_bind; [apply hoare_random_uniform|]. intros avg.
    eapply hoare_bind; [apply hoare_random_uniform|]. intros success.
    eapply hoare_bind; [apply hoare_random_uniform|]. intros uptime.
    eapply hoare_bind; [apply hoare_datetime_now|].
    intros now. apply hoare_pure. intros ->.
    apply hoare_ret. intros w' Hw'. split; [exact Hw'|].
    unfold integer_in, number_at.
    split; [by rewrite !dom_insert_L, dom_empty_L|].
    split; [exists total_records; by simplify_map_eq|].
    split; [exists active_users; by simplify_map_eq|].
    split; [eexists; by simplify_map_eq|].
    split; [eexists; by simplify_map_eq|].
    split; [eexists; by simplify_map_eq|].
    by simplify_map_eq. }
  destruct (Hrun w) as (m & w' & Heq & Hpost); [by repeat split|].
  by exists m, w'.
Qed.

Variable rng_gauss : Qc → Qc → rng_state → Qc * rng_state.




End MetricsAndSeries.
